(** * dollarWize: Rocq model of the core TypeScript logic

    A shallow embedding of [src/dollarWize.ts]: the question bank and glossary
    ([FinancialQuestionBank]), the pretest ([AssessmentEngine]), quiz
    generation and scoring ([QuizEngine]) and progress aggregation
    ([ProgressTracker]).

    Conventions of the embedding.
    - String-literal union types are inductive types.
    - A [number] that the program only ever uses as an integer (answer
      indices, weights, counters) is a [Z]; a [number] that takes fractional
      values (accuracy, mastery) is an IEEE 754 binary64 [float], which is
      what a JavaScript number is.  [Z2float] is the (correctly rounded)
      injection of the former in the latter.
    - A JavaScript object used as a map from category names to numbers is an
      association list in insertion order ([JsObject]), which is the order
      [Object.entries] enumerates.
    - Objects and arrays that are shared and mutated in place live in an
      explicit [Heap]; records hold references ([nat] locations) to them.
    - [new Date()] and [Math.random()] are inputs of the functions that
      call them. *)

From Stdlib Require Import ZArith List String Bool Floats Permutation Lia.
From stdpp Require Import base list.
Import ListNotations.

Local Open Scope string_scope.
Local Open Scope list_scope.

(** ** Type definitions and interfaces *)

Inductive FinancialLiteracyLevel : Type :=
  | novice
  | intermediate
  | advanced.

Inductive FinancialCategory : Type :=
  | savings
  | retirement
  | investing
  | credit
  | planning
  | economics
  | taxation
  | real_estate
  | education
  | insurance
  | budgeting
  | debt_management.

#[global] Instance level_eq_dec : EqDecision FinancialLiteracyLevel.
Proof. solve_decision. Defined.

#[global] Instance category_eq_dec : EqDecision FinancialCategory.
Proof. solve_decision. Defined.

(** [a === b] on two levels, two categories. *)
Definition level_eqb (a b : FinancialLiteracyLevel) : bool := bool_decide (a = b).
Definition category_eqb (a b : FinancialCategory) : bool := bool_decide (a = b).

(** The property name of a category, as [Object.entries] and template
    strings see it. *)
Definition category_name (c : FinancialCategory) : string :=
  match c with
  | savings => "savings"
  | retirement => "retirement"
  | investing => "investing"
  | credit => "credit"
  | planning => "planning"
  | economics => "economics"
  | taxation => "taxation"
  | real_estate => "real_estate"
  | education => "education"
  | insurance => "insurance"
  | budgeting => "budgeting"
  | debt_management => "debt_management"
  end.

(** [array.includes(x)] on an array of strings, of categories. *)
Definition includes (l : list string) (x : string) : bool :=
  existsb (fun y => String.eqb y x) l.

Definition includes_category (l : list FinancialCategory) (x : FinancialCategory) : bool :=
  existsb (fun y => category_eqb y x) l.

(** Milliseconds since the epoch, the value of a [Date]. *)
Definition Date : Type := Z.

Record QuizQuestion : Type := {
  id : string;
  question : string;
  options : list string;
  correct : Z;
  level : FinancialLiteracyLevel;
  category : FinancialCategory;
  explanation : string;
  difficulty_weight : Z;
  us_specific : bool
}.

(** The optional fields, and [related_terms], which the interface declares
    mandatory but several literals of the glossary leave out, are [option]s:
    [None] is [undefined]. *)
Record GlossaryTerm : Type := {
  t_id : string;
  term : string;
  definition : string;
  t_level : FinancialLiteracyLevel;
  t_category : FinancialCategory;
  related_terms : option (list string);
  us_context : option string;
  examples : option (list string)
}.

(** *** Objects keyed by category *)

Definition JsObject (V : Type) : Type := list (FinancialCategory * V).

(** [o[k]]: [None] is [undefined]. *)
Fixpoint get {V : Type} (o : JsObject V) (k : FinancialCategory) : option V :=
  match o with
  | [] => None
  | (k', v) :: o' => if category_eqb k' k then Some v else get o' k
  end.

(** [o[k] = v]: an existing property keeps its place, a new one goes last. *)
Fixpoint set {V : Type} (o : JsObject V) (k : FinancialCategory) (v : V) : JsObject V :=
  match o with
  | [] => [(k, v)]
  | (k', v') :: o' =>
      if category_eqb k' k then (k', v) :: o' else (k', v') :: set o' k v
  end.

(** [x || 0] on an integer-valued property. *)
Definition or_zero (x : option Z) : Z :=
  match x with
  | Some v => v
  | None => 0%Z
  end.

Record AssessmentResult : Type := {
  user_id : string;
  primary_level : FinancialLiteracyLevel;
  category_scores : JsObject Z;
  strengths : list FinancialCategory;
  improvement_areas : list FinancialCategory;
  recommended_topics : list string;
  assessment_date : Date
}.

Record QuizSession : Type := {
  session_id : string;
  user_level : FinancialLiteracyLevel;
  questions : list QuizQuestion;
  user_answers : list Z;
  score : Z;
  total_questions : Z;
  time_taken : Z;
  category_performance : JsObject Z;
  completed_at : option Date
}.

(** *** Numbers and the heap *)

(** The binary64 value of an integer. *)
Definition Z2float (z : Z) : float :=
  SF2Prim (binary_normalize prec emax z 0 false).

(** [x || 0] on a number: [undefined], [NaN] and both zeros give [0]. *)
Definition or_zero_f (x : option float) : float :=
  match x with
  | Some v => if (PrimFloat.eqb v 0 || is_nan v)%bool then 0%float else v
  | None => 0%float
  end.

(** A reference: an index in the heap. *)
Abbreviation loc := nat.

(** The category-mastery objects and the achievement arrays that progress
    records point to. *)
Record Heap : Type := {
  objects : list (JsObject float);
  arrays : list (list string)
}.

(** [category_mastery] is a reference to an object and [achievements] a
    reference to an array ([None]: the property is [undefined]);
    [last_activity] may be unset. *)
Record UserProgress : Type := {
  p_user_id : string;
  current_level : FinancialLiteracyLevel;
  total_quizzes_completed : Z;
  total_questions_answered : Z;
  overall_accuracy : float;
  category_mastery : loc;
  learning_streak : Z;
  achievements : option loc;
  last_activity : option Date
}.

(** Errors a call can raise. *)
Inductive JsError : Type :=
  | TypeError.

Inductive Result (A : Type) : Type :=
  | Ok (a : A)
  | Throw (e : JsError).

Arguments Ok {A} a.
Arguments Throw {A} e.

Definition bind {A B : Type} (r : Result A) (k : A -> Result B) : Result B :=
  match r with
  | Ok a => k a
  | Throw e => Throw e
  end.

Notation "'do' x <- r ; k" := (bind r (fun x => k))
  (at level 10, x name, r at level 100, k at level 200).

(** [array.filter(f)] for a callback that may throw: the first exception
    aborts the call. *)
Fixpoint filterM {A : Type} (f : A -> Result bool) (l : list A) : Result (list A) :=
  match l with
  | [] => Ok []
  | x :: l' =>
      do b <- f x;
      do r <- filterM f l';
      Ok (if b : bool then x :: r else r)
  end.

(** [f(x)] for a property [f] of an object: calling [undefined] raises a
    [TypeError]. *)
Definition call {A B : Type} (f : option (A -> B)) (x : A) : Result B :=
  match f with
  | Some g => Ok (g x)
  | None => Throw TypeError
  end.

(** The abstract operation [ToIntegerOrInfinity] of the language on a
    number: [NaN] and the zeros give 0, the infinities themselves, and any
    other number is truncated towards zero. *)
Inductive IntegerOrInfinity : Type :=
  | Finite (z : Z)
  | PlusInfinity
  | MinusInfinity.

Definition ToIntegerOrInfinity (x : float) : IntegerOrInfinity :=
  match Prim2SF x with
  | S754_nan => Finite 0
  | S754_zero _ => Finite 0
  | S754_infinity false => PlusInfinity
  | S754_infinity true => MinusInfinity
  | S754_finite neg m e =>
      let a := if (0 <=? e)%Z
               then (Z.pos m * 2 ^ e)%Z
               else (Z.pos m / 2 ^ (- e))%Z in
      Finite (if neg then (- a)%Z else a)
  end.

(** [array.slice(0, end)]: a negative [end] counts from the end of the
    array. *)
Definition slice_to {A : Type} (array : list A) (end_ : float) : list A :=
  let len := Z.of_nat (length array) in
  let final :=
    match ToIntegerOrInfinity end_ with
    | MinusInfinity => 0%Z
    | Finite relativeEnd =>
        if (relativeEnd <? 0)%Z then Z.max (len + relativeEnd) 0 else Z.min relativeEnd len
    | PlusInfinity => len
    end in
  take (Z.to_nat final) array.

(** ** Core data structures *)

Module FinancialQuestionBank.

Local Open Scope Z_scope.

Definition questions : list QuizQuestion :=
  [
  {| id := "nov_001";
     question := "What is the main benefit of a Roth IRA?";
     options := ["You get a tax deduction for contributions";
                 "Qualified withdrawals in retirement are tax-free";
                 "It has no contribution limits";
                 "It can only be used for a home down payment"];
     correct := 1;
     level := novice;
     category := retirement;
     explanation := "A Roth IRA allows for tax-free growth and tax-free withdrawals in retirement, as long as you've had the account for at least five years and are over 59½. Contributions are made with after-tax dollars.";
     difficulty_weight := 2;
     us_specific := true |};
  {| id := "nov_002";
     question := "What does compound interest mean?";
     options := ["Interest paid only on the original amount invested";
                 "Interest paid on both the original amount and previously earned interest";
                 "Interest that changes daily";
                 "Interest that is guaranteed by the government"];
     correct := 1;
     level := novice;
     category := savings;
     explanation := "Compound interest is when you earn interest on both your original investment and the interest you've already earned. This creates exponential growth over time.";
     difficulty_weight := 2;
     us_specific := false |};
  {| id := "nov_003";
     question := "How much should you ideally have in an emergency fund?";
     options := ["One month of expenses";
                 "3-6 months of living expenses";
                 "One year of income";
                 "An amount equal to your car loan"];
     correct := 1;
     level := novice;
     category := savings;
     explanation := "An emergency fund should hold enough cash to cover 3 to 6 months of essential living expenses. This provides a safety net for unexpected job loss, medical emergencies, or other large expenses without relying on debt.";
     difficulty_weight := 2;
     us_specific := false |};
  {| id := "nov_004";
     question := "What is the most common range for a 'good' FICO credit score?";
     options := ["300-579";
                 "580-669";
                 "670-739";
                 "740-850"];
     correct := 2;
     level := novice;
     category := credit;
     explanation := "In the United States, FICO credit scores range from 300-850. A score of 670-739 is considered good, while 740+ is very good to exceptional. Lenders often use these scores to determine loan eligibility and interest rates.";
     difficulty_weight := 3;
     us_specific := true |};
  {| id := "nov_005";
     question := "What is the purpose of a 401(k) retirement plan?";
     options := ["A tax-free account for a home down payment";
                 "A government-funded pension plan";
                 "An employer-sponsored retirement savings account";
                 "A savings account for college tuition"];
     correct := 2;
     level := novice;
     category := retirement;
     explanation := "A 401(k) is a popular employer-sponsored retirement account in the US. It allows employees to contribute a portion of their salary, often with a matching contribution from the employer. Contributions are typically pre-tax, reducing your taxable income.";
     difficulty_weight := 3;
     us_specific := true |};
  {| id := "nov_006";
     question := "What is the difference between a checking and a savings account?";
     options := ["Checking accounts pay higher interest";
                 "Savings accounts are for daily transactions, checking for long-term goals";
                 "Checking accounts are for daily transactions, savings accounts are for long-term goals";
                 "There is no difference"];
     correct := 2;
     level := novice;
     category := savings;
     explanation := "Checking accounts are designed for everyday transactions like paying bills and using a debit card, while savings accounts are intended to hold money you don't need immediately, often earning a small amount of interest.";
     difficulty_weight := 1;
     us_specific := false |};
  {| id := "nov_007";
     question := "What is net income?";
     options := ["Your total income before any deductions";
                 "Your income after taxes and other deductions are taken out";
                 "The money you earn from a side job";
                 "Your income before your employer matches your 401(k) contribution"];
     correct := 1;
     level := novice;
     category := planning;
     explanation := "Net income, or 'take-home pay,' is the amount of money you have left after all payroll deductions, such as taxes, Social Security, and health insurance premiums, are removed from your gross income.";
     difficulty_weight := 2;
     us_specific := false |};
  {| id := "nov_008";
     question := "What is a mortgage?";
     options := ["A loan used to buy a car";
                 "A loan for a house or real estate";
                 "A line of credit on your home";
                 "A type of credit card"];
     correct := 1;
     level := novice;
     category := real_estate;
     explanation := "A mortgage is a specific type of loan used to purchase a home or real estate. The property itself serves as collateral for the loan.";
     difficulty_weight := 1;
     us_specific := false |};
  {| id := "nov_009";
     question := "Why is having a budget important?";
     options := ["It guarantees you will save money";
                 "It helps you track your spending and achieve financial goals";
                 "It is only for people who have a lot of debt";
                 "It allows you to spend as much as you want"];
     correct := 1;
     level := novice;
     category := budgeting;
     explanation := "Creating a budget is the first step toward gaining control of your finances. It helps you understand where your money is going and allows you to make a plan to save, invest, and reach your goals.";
     difficulty_weight := 1;
     us_specific := false |};
  {| id := "nov_010";
     question := "What is the primary role of a financial advisor?";
     options := ["To guarantee high investment returns";
                 "To provide personalized financial guidance and planning";
                 "To manage your bank account daily";
                 "To sell specific financial products only"];
     correct := 1;
     level := novice;
     category := planning;
     explanation := "A financial advisor helps you set financial goals, create a plan, and make informed decisions about investments, retirement, and other financial matters.";
     difficulty_weight := 1;
     us_specific := false |};
  {| id := "int_001";
     question := "What is a 529 plan primarily used for?";
     options := ["Retirement savings";
                 "Healthcare expenses";
                 "Education savings";
                 "Long-term care"];
     correct := 2;
     level := intermediate;
     category := education;
     explanation := "A 529 plan is a tax-advantaged savings plan in the US designed to encourage saving for future education costs. Contributions grow tax-deferred, and withdrawals are tax-free when used for qualified education expenses.";
     difficulty_weight := 3;
     us_specific := true |};
  {| id := "int_002";
     question := "What is the 'Rule of 72'?";
     options := ["A calculation for compound interest";
                 "A way to estimate how long it takes an investment to double";
                 "A formula for calculating your tax liability";
                 "A formula for calculating your credit score"];
     correct := 1;
     level := intermediate;
     category := investing;
     explanation := "The Rule of 72 is a simple way to estimate how long it will take for your investment to double, given a fixed annual rate of return. You divide 72 by the annual rate of return.";
     difficulty_weight := 3;
     us_specific := false |};
  {| id := "int_003";
     question := "What is dollar-cost averaging?";
     options := ["Selling investments when the price is high";
                 "Investing a fixed amount of money at regular intervals";
                 "Investing all your money at once";
                 "A strategy to always buy low and sell high"];
     correct := 1;
     level := intermediate;
     category := investing;
     explanation := "Dollar-cost averaging involves investing a fixed dollar amount on a regular basis, regardless of the share price. This strategy can reduce risk by smoothing out market volatility, preventing you from putting all your money into an investment at a market peak.";
     difficulty_weight := 3;
     us_specific := false |};
  {| id := "int_004";
     question := "Which of the following is a common deductible for a US tax return?";
     options := ["Rent payments";
                 "Standard deduction or itemized deductions for mortgage interest";
                 "Groceries";
                 "Car payments"];
     correct := 1;
     level := intermediate;
     category := taxation;
     explanation := "In the US, taxpayers can choose between the standard deduction or itemized deductions, such as state and local taxes, charitable contributions, and mortgage interest. Most people take the standard deduction.";
     difficulty_weight := 4;
     us_specific := true |};
  {| id := "int_005";
     question := "What is the difference between a bull market and a bear market?";
     options := ["A bull market is a period of falling stock prices; a bear market is a period of rising stock prices";
                 "A bull market is a period of rising stock prices; a bear market is a period of falling stock prices";
                 "They are the same thing";
                 "A bull market refers to the bond market, a bear market refers to the stock market"];
     correct := 1;
     level := intermediate;
     category := investing;
     explanation := "A bull market is a prolonged period where stock prices are rising or expected to rise, while a bear market is a period where prices are falling or expected to fall, often due to a recession or economic slowdown.";
     difficulty_weight := 3;
     us_specific := false |};
  {| id := "int_006";
     question := "What is a Health Savings Account (HSA)?";
     options := ["A retirement account for healthcare professionals";
                 "A savings account for gym memberships";
                 "A tax-advantaged savings account for healthcare expenses";
                 "A government-funded health insurance plan"];
     correct := 2;
     level := intermediate;
     category := savings;
     explanation := "An HSA is a tax-advantaged savings account used in conjunction with a high-deductible health insurance plan. Contributions are tax-deductible, funds grow tax-free, and withdrawals for qualified medical expenses are also tax-free.";
     difficulty_weight := 4;
     us_specific := true |};
  {| id := "adv_001";
     question := "What is a 'Sharpe Ratio'?";
     options := ["A measure of an investment's dividend yield";
                 "A measure of risk-adjusted return";
                 "A measure of a company's price-to-earnings ratio";
                 "A measure of a bond's duration"];
     correct := 1;
     level := advanced;
     category := investing;
     explanation := "The Sharpe Ratio measures an investment's performance by adjusting for its risk. It indicates the amount of excess return an investor receives for the volatility of holding that asset. Higher ratios are better.";
     difficulty_weight := 5;
     us_specific := false |};
  {| id := "adv_002";
     question := "What is 'tax loss harvesting'?";
     options := ["Avoiding all capital gains";
                 "Selling losing investments to offset capital gains for tax purposes";
                 "Only investing in tax-free accounts";
                 "Delaying all investment sales"];
     correct := 1;
     level := advanced;
     category := taxation;
     explanation := "Tax loss harvesting involves selling investments at a loss to offset capital gains, reducing your overall tax liability. It's a strategy used at the end of the year to improve after-tax returns. In the US, you can also deduct a limited amount of losses against ordinary income.";
     difficulty_weight := 5;
     us_specific := true |};
  {| id := "adv_003";
     question := "What is the main difference between a traditional IRA and a Roth IRA?";
     options := ["Traditional IRAs are for younger people, Roth IRAs are for older people";
                 "Traditional IRA contributions are pre-tax, while Roth IRA contributions are after-tax";
                 "Roth IRAs have a higher contribution limit";
                 "Traditional IRAs are for retirement, Roth IRAs are for education"];
     correct := 1;
     level := advanced;
     category := retirement;
     explanation := "The key difference lies in the tax treatment. With a traditional IRA, contributions may be tax-deductible, and withdrawals in retirement are taxed. With a Roth IRA, contributions are not deductible, but qualified withdrawals in retirement are tax-free.";
     difficulty_weight := 4;
     us_specific := true |};
  {| id := "adv_004";
     question := "What is 'asset-backed security' (ABS)?";
     options := ["A security backed by physical gold";
                 "A financial security backed by a pool of assets, often loans or receivables";
                 "A security issued by a government";
                 "A stock that pays high dividends"];
     correct := 1;
     level := advanced;
     category := investing;
     explanation := "An asset-backed security (ABS) is a financial security collateralized by a pool of assets—such as loans, leases, credit card receivables, or royalties. These are often used to convert non-tradable assets into tradable securities.";
     difficulty_weight := 5;
     us_specific := false |};
  {| id := "adv_005";
     question := "What is a 'Systematic Withdrawal Plan'?";
     options := ["A plan to withdraw a fixed amount of money from an investment account on a regular schedule";
                 "A plan for withdrawing from a bank account at an ATM";
                 "A plan for getting rid of debt";
                 "A plan for making regular contributions to a retirement account"];
     correct := 0;
     level := advanced;
     category := retirement;
     explanation := "A systematic withdrawal plan involves taking regular withdrawals from retirement accounts while keeping remaining funds invested. This strategy helps manage income needs during retirement while balancing growth potential.";
     difficulty_weight := 4;
     us_specific := false |};
  {| id := "adv_006";
     question := "What is 'basis' in tax law?";
     options := ["The amount of tax you owe at the end of the year";
                 "The original cost of an asset for tax purposes";
                 "The amount of money you have in a savings account";
                 "The amount you have contributed to a retirement account"];
     correct := 1;
     level := advanced;
     category := taxation;
     explanation := "Basis, or 'cost basis,' is the original value of an asset for tax purposes. It is used to calculate the gain or loss when the asset is sold. For example, if you buy a stock for $100 and sell it for $150, your basis is $100, and your capital gain is $50.";
     difficulty_weight := 5;
     us_specific := true |}
  ].

Definition glossaryTerms : list GlossaryTerm :=
  [
  {| t_id := "ira_roth";
     term := "Roth IRA";
     definition := "An individual retirement account (IRA) where contributions are made with after-tax dollars, and qualified withdrawals in retirement are tax-free. It's ideal for those who expect to be in a higher tax bracket later in life.";
     t_level := novice;
     t_category := retirement;
     related_terms := Some ["traditional_ira";
                            "401k"];
     us_context := Some "Roth IRAs are a popular way to save for retirement in the US, offering a different tax advantage than Traditional IRAs.";
     examples := Some ["Retirement savings";
                       "Tax-free growth";
                       "Long-term wealth building"] |};
  {| t_id := "fico_score";
     term := "FICO Score";
     definition := "A type of credit score used by lenders to assess a person's creditworthiness. The score ranges from 300 to 850, with higher scores indicating lower credit risk. It is a key factor in determining loan and credit card approval, as well as interest rates.";
     t_level := novice;
     t_category := credit;
     related_terms := Some ["credit_report";
                            "interest_rate"];
     us_context := Some "FICO is the most widely used credit scoring model in the US. A good FICO score (670-739) can lead to better financial opportunities.";
     examples := Some ["Mortgage application";
                       "Car loan interest rate";
                       "Credit card approval"] |};
  {| t_id := "401k";
     term := "401(k) Plan";
     definition := "An employer-sponsored retirement savings plan. Employees can contribute a portion of their pre-tax or after-tax (Roth 401k) salary, and many employers offer a matching contribution.";
     t_level := novice;
     t_category := retirement;
     related_terms := Some ["ira";
                            "roth_ira";
                            "vesting"];
     us_context := Some "The 401(k) is the most common workplace retirement plan in the US and is a cornerstone of American retirement savings.";
     examples := Some ["Retirement savings";
                       "Tax reduction strategy";
                       "Employer match"] |};
  {| t_id := "cd";
     term := "CD (Certificate of Deposit)";
     definition := "A savings certificate entitling the bearer to a fixed interest rate on a fixed sum of money for a predetermined period of time. It's a low-risk, low-return investment often insured by the FDIC.";
     t_level := novice;
     t_category := savings;
     related_terms := Some ["savings_account";
                            "fixed_income"];
     us_context := Some "CDs are a common way for US consumers to earn a higher interest rate than a traditional savings account without taking on investment risk.";
     examples := Some ["Savings for a future goal";
                       "Emergency fund overflow";
                       "Short-term investment"] |};
  {| t_id := "inflation";
     term := "Inflation";
     definition := "The rate at which the general level of prices for goods and services rises, reducing purchasing power over time. Currently tracked by the Bureau of Labor Statistics (BLS), understanding inflation helps you make better long-term financial decisions.";
     t_level := novice;
     t_category := economics;
     related_terms := None;
     us_context := None;
     examples := None |};
  {| t_id := "mortgage";
     term := "Mortgage";
     definition := "A type of loan used to finance the purchase of real estate. The property itself serves as collateral for the loan.";
     t_level := novice;
     t_category := real_estate;
     related_terms := None;
     us_context := None;
     examples := None |};
  {| t_id := "529_plan";
     term := "529 Plan";
     definition := "A tax-advantaged savings plan designed to encourage saving for future education costs. Contributions grow tax-deferred, and withdrawals are tax-free when used for qualified education expenses.";
     t_level := intermediate;
     t_category := education;
     related_terms := Some ["ira";
                            "401k"];
     us_context := Some "A 529 plan is the most popular way for Americans to save for college and other educational expenses, offering state and federal tax benefits.";
     examples := Some ["College savings";
                       "Private school tuition";
                       "Tax-advantaged saving"] |};
  {| t_id := "hsa";
     term := "HSA (Health Savings Account)";
     definition := "A tax-advantaged savings account that can be used for healthcare expenses. It is available to those with a high-deductible health plan. Contributions are tax-deductible, funds grow tax-free, and withdrawals for qualified medical expenses are also tax-free.";
     t_level := intermediate;
     t_category := savings;
     related_terms := Some ["fsa";
                            "ira"];
     us_context := Some "An HSA is often considered a 'triple-tax-advantaged' account and can be a powerful retirement savings tool if healthcare costs are anticipated.";
     examples := Some ["Medical emergency fund";
                       "Healthcare savings";
                       "Retirement savings"] |};
  {| t_id := "etf";
     term := "ETF (Exchange-Traded Fund)";
     definition := "A type of investment fund that trades on stock exchanges like individual stocks. ETFs typically track an index, commodity, bonds, or basket of assets and often have lower fees than mutual funds.";
     t_level := intermediate;
     t_category := investing;
     related_terms := None;
     us_context := None;
     examples := None |};
  {| t_id := "mutual_fund";
     term := "Mutual Fund";
     definition := "A type of investment vehicle made up of a pool of funds collected from many investors to invest in securities like stocks, bonds, or other securities. Professional fund managers make investment decisions on behalf of shareholders.";
     t_level := intermediate;
     t_category := investing;
     related_terms := None;
     us_context := None;
     examples := None |};
  {| t_id := "compound_interest";
     term := "Compound Interest";
     definition := "Interest calculated on both the principal amount and previously earned interest. This creates exponential growth over time, making it one of the most powerful wealth-building concepts for long-term financial success.";
     t_level := novice;
     t_category := savings;
     related_terms := Some ["simple_interest";
                            "principal";
                            "time_value_money"];
     us_context := None;
     examples := Some ["Savings account growth";
                       "Investment returns";
                       "Debt accumulation"] |};
  {| t_id := "tax_loss_harvesting";
     term := "Tax Loss Harvesting";
     definition := "An investment strategy that involves selling investments at a loss to offset capital gains, thereby reducing overall tax liability. The strategy can be used to offset up to $3,000 of ordinary income per year in the US.";
     t_level := advanced;
     t_category := taxation;
     related_terms := Some ["capital_gains";
                            "wash_sale_rule"];
     us_context := Some "This is a popular strategy for high-net-worth individuals to minimize their tax burden on investments, but it must be done carefully to avoid the 'wash sale rule'.";
     examples := Some ["Offsetting capital gains";
                       "Reducing annual tax bill"] |};
  {| t_id := "sharpe_ratio";
     term := "Sharpe Ratio";
     definition := "A measure of risk-adjusted return that calculates the excess return per unit of risk. Higher Sharpe ratios indicate better risk-adjusted performance, useful for comparing investment strategies or fund managers.";
     t_level := advanced;
     t_category := investing;
     related_terms := None;
     us_context := None;
     examples := None |};
  {| t_id := "reit";
     term := "REIT (Real Estate Investment Trust)";
     definition := "A company that owns, operates, or finances income-generating real estate. REITs allow investors to earn income from real estate without the need to buy or manage properties directly.";
     t_level := advanced;
     t_category := real_estate;
     related_terms := None;
     us_context := None;
     examples := None |}
  ].

Definition terms : list GlossaryTerm := glossaryTerms.

(** The property [getQuestions] of a bank, which [QuizEngine.generateQuiz]
    calls.  The class declares the fields [questions] and [glossaryTerms],
    assigns [terms], and has the methods [getAllTerms], [getTermsByCategory]
    and [getRelatedTerms]: it has no [getQuestions], nor has
    [Object.prototype], so that the property is [undefined]. *)
Definition getQuestions : option (FinancialLiteracyLevel -> list QuizQuestion) :=
  None.

Definition getAllTerms : list GlossaryTerm := terms.

Definition getTermsByCategory (c : FinancialCategory) : list GlossaryTerm :=
  List.filter (fun t => category_eqb (t_category t) c) terms.

(** [term.related_terms.includes(t.id)]: a [TypeError] when the property
    is [undefined]. *)
Definition related_includes (t0 t : GlossaryTerm) : Result bool :=
  match related_terms t0 with
  | Some ids => Ok (includes ids (t_id t))
  | None => Throw TypeError
  end.

(** The lookup over an arbitrary table of terms. *)
Definition getRelatedTermsIn (ts : list GlossaryTerm) (termId : string)
  : Result (list GlossaryTerm) :=
  match List.find (fun t => String.eqb (t_id t) termId) ts with
  | None => Ok []
  | Some t0 => filterM (related_includes t0) ts
  end.

Definition getRelatedTerms (termId : string) : Result (list GlossaryTerm) :=
  getRelatedTermsIn terms termId.

End FinancialQuestionBank.

(** [array.forEach((x, index) => ...)], as a fold over the state that the
    callback updates; [index] is the index of the head of [l]. *)
Fixpoint forEach {A S : Type} (f : S -> A -> nat -> S) (l : list A) (index : nat) (s : S) : S :=
  match l with
  | [] => s
  | x :: l' => forEach f l' (Datatypes.S index) (f s x index)
  end.

(** [answers[index] === correct]: an index past the end reads [undefined],
    which equals no number. *)
Definition answer_is (answers : list Z) (index : nat) (c : Z) : bool :=
  match answers !! index with
  | Some a => Z.eqb a c
  | None => false
  end.

(** ** Assessment and personalization engine *)

Module AssessmentEngine.

Local Open Scope Z_scope.

Definition assessmentQuestions : list QuizQuestion :=
  [
  {| id := "assess_001";
     question := "What is the purpose of a 401(k) plan and why is it beneficial?";
     options := ["It's a tax-free savings account for a home down payment.";
                 "It's an employer-sponsored retirement account with potential tax benefits.";
                 "It's a government pension plan for all citizens.";
                 "It's a savings account for college tuition."];
     correct := 1;
     level := novice;
     category := retirement;
     explanation := "A 401(k) is an employer-sponsored retirement savings plan in the U.S. that allows for pre-tax contributions, reducing your current taxable income.";
     difficulty_weight := 3;
     us_specific := true |};
  {| id := "assess_002";
     question := "What is the main factor that determines your FICO credit score?";
     options := ["Your age";
                 "Your income";
                 "Your payment history and credit utilization";
                 "The number of bank accounts you have"];
     correct := 2;
     level := novice;
     category := credit;
     explanation := "Payment history (paying on time) and credit utilization (the amount of credit you're using compared to your limit) are the most significant factors in calculating a FICO credit score. Missing payments and high balances can significantly lower your score.";
     difficulty_weight := 3;
     us_specific := true |};
  {| id := "assess_003";
     question := "What is the primary difference between a stock and a bond?";
     options := ["A stock represents ownership in a company, while a bond represents a loan to a company or government.";
                 "A stock is a loan, a bond is ownership.";
                 "Stocks are only for advanced investors, bonds are for beginners.";
                 "Stocks pay interest, bonds pay dividends."];
     correct := 0;
     level := intermediate;
     category := investing;
     explanation := "When you buy a stock, you become a part-owner (shareholder) of the company. When you buy a bond, you are lending money to the issuer (a company or government) in exchange for regular interest payments and the return of the principal at a future date.";
     difficulty_weight := 4;
     us_specific := false |};
  {| id := "assess_004";
     question := "What is the primary benefit of a 529 plan?";
     options := ["Tax-free withdrawals for qualified education expenses.";
                 "You can withdraw money at any time for any reason without penalty.";
                 "It's a guaranteed rate of return.";
                 "It has no annual contribution limits."];
     correct := 0;
     level := intermediate;
     category := education;
     explanation := "The main benefit of a 529 plan is that the funds grow tax-deferred and are withdrawn completely tax-free as long as they are used for qualified education expenses, such as tuition, fees, and room and board.";
     difficulty_weight := 4;
     us_specific := true |};
  {| id := "assess_005";
     question := "What is the relationship between risk and return in investments?";
     options := ["Higher risk always guarantees higher returns";
                 "There is no relationship between risk and return";
                 "Generally, higher potential returns come with higher risk, but returns are never guaranteed";
                 "Lower risk investments always perform better"];
     correct := 2;
     level := advanced;
     category := investing;
     explanation := "The risk-return relationship is fundamental to investment decision-making. Investors who are willing to take on more risk demand a higher potential return, as compensation for the possibility of losing their principal.";
     difficulty_weight := 4;
     us_specific := false |}
  ].

(** The object [{ novice: 0, intermediate: 0, advanced: 0 }]. *)
Record LevelScores : Type := {
  s_novice : Z;
  s_intermediate : Z;
  s_advanced : Z
}.

Definition level_score (s : LevelScores) (l : FinancialLiteracyLevel) : Z :=
  match l with
  | novice => s_novice s
  | intermediate => s_intermediate s
  | advanced => s_advanced s
  end.

(** [scores[l] += w]. *)
Definition add_level_score (s : LevelScores) (l : FinancialLiteracyLevel) (w : Z) : LevelScores :=
  match l with
  | novice =>
      {| s_novice := s_novice s + w; s_intermediate := s_intermediate s; s_advanced := s_advanced s |}
  | intermediate =>
      {| s_novice := s_novice s; s_intermediate := s_intermediate s + w; s_advanced := s_advanced s |}
  | advanced =>
      {| s_novice := s_novice s; s_intermediate := s_intermediate s; s_advanced := s_advanced s + w |}
  end.

Definition questionWeights (l : FinancialLiteracyLevel) : Z :=
  match l with
  | novice => 1
  | intermediate => 2
  | advanced => 3
  end.

Definition initialScores : LevelScores :=
  {| s_novice := 0; s_intermediate := 0; s_advanced := 0 |}.

Definition initialCategoryScores : JsObject Z :=
  [(savings, 0); (retirement, 0); (investing, 0); (credit, 0); (planning, 0);
   (economics, 0); (taxation, 0); (real_estate, 0); (education, 0);
   (insurance, 0); (budgeting, 0); (debt_management, 0)].

(** The body of the [forEach] callback of [assessUser]. *)
Definition assess_step (answers : list Z) (st : LevelScores * JsObject Z)
    (q : QuizQuestion) (index : nat) : LevelScores * JsObject Z :=
  let '(scores, categoryScores) := st in
  if answer_is answers index (correct q) then
    (add_level_score scores (level q) (questionWeights (level q)),
     set categoryScores (category q)
       (or_zero (get categoryScores (category q)) + difficulty_weight q))
  else st.

(** The two comparisons that choose the primary level. *)
Definition choose_level (scores : LevelScores) : FinancialLiteracyLevel :=
  let primaryLevel := novice in
  let maxScore := s_novice scores in
  let '(maxScore, primaryLevel) :=
    if s_intermediate scores >? maxScore
    then (s_intermediate scores, intermediate)
    else (maxScore, primaryLevel) in
  if s_advanced scores >? maxScore then advanced else primaryLevel.

Definition generateRecommendations (l : FinancialLiteracyLevel)
    (improvementAreas : list FinancialCategory) : list string :=
  let recommendations := [] in
  let recommendations :=
    if (0 <? length improvementAreas)%nat then
      recommendations ++
        [String.append "Based on your assessment, focus on these areas: "
           (String.append (String.concat ", " (map category_name improvementAreas))
              ". Try our targeted quizzes and glossary sections for these topics.")]
    else recommendations in
  match l with
  | novice =>
      recommendations ++
        ["Start with our 'Foundations of Finance' quiz and read the glossary terms in the Novice section."]
  | intermediate =>
      recommendations ++
        ["Challenge yourself with our Intermediate quizzes and explore concepts like investment diversification and tax strategies."]
  | advanced =>
      recommendations ++
        ["You're ready for our Advanced quizzes. Dive into complex topics like options, real estate investment trusts, and advanced tax planning."]
  end.

(** The level and category accumulators after the [forEach]. *)
Definition accumulate (qs : list QuizQuestion) (answers : list Z)
  : LevelScores * JsObject Z :=
  forEach (assess_step answers) qs 0%nat (initialScores, initialCategoryScores).

(** The assessment over an arbitrary pretest [qs]. *)
Definition assessWith (qs : list QuizQuestion) (answers : list Z) (now : Date)
  : AssessmentResult :=
  let '(scores, categoryScores) := accumulate qs answers in
  let primaryLevel := choose_level scores in
  let improvementAreas :=
    map fst (List.filter (fun e => snd e <? 5) categoryScores) in
  let strengths :=
    map fst (List.filter (fun e => snd e >=? 5) categoryScores) in
  let recommendedTopics := generateRecommendations primaryLevel improvementAreas in
  {| user_id := "guest";
     primary_level := primaryLevel;
     category_scores := categoryScores;
     strengths := strengths;
     improvement_areas := improvementAreas;
     recommended_topics := recommendedTopics;
     assessment_date := now |}.

Definition assessUser (answers : list Z) (now : Date) : AssessmentResult :=
  assessWith assessmentQuestions answers now.

End AssessmentEngine.

(** ** Quiz management system *)

Module QuizEngine.

Local Open Scope Z_scope.

(** The source of [Math.random()]: the [k]-th draw from now on. *)
Definition Rng : Type := nat -> nat.

(** [[array[i], array[j]] = [array[j], array[i]]]. *)
Definition swap {A : Type} (array : list A) (i j : nat) : list A :=
  match array !! i, array !! j with
  | Some ai, Some aj => <[j:=ai]> (<[i:=aj]> array)
  | _, _ => array
  end.

(** The loop of [shuffleArray] from index [i] down to 1.  The [k]-th draw
    [j = Math.floor(Math.random() * (i + 1))] is some index between 0 and
    [i]: [rng k] reduced modulo [i + 1]. *)
Fixpoint shuffle_loop {A : Type} (i : nat) (rng : Rng) (k : nat) (array : list A) : list A :=
  match i with
  | O => array
  | Datatypes.S i' =>
      let j := (rng k mod (i + 1))%nat in
      shuffle_loop i' rng (Datatypes.S k) (swap array i j)
  end.

Definition shuffleArray {A : Type} (rng : Rng) (array : list A) : list A :=
  shuffle_loop (length array - 1)%nat rng 0%nat array.

(** [questionCount] is a number, 10 when the argument is left out
    ([None]); [focusCategories] may be left out too.  The first statement
    calls [getQuestions] on the bank, and what follows runs on what that call
    returns.  The warning that the undersized branch writes to the console
    is left out. *)
Definition generateQuiz (rng : Rng) (userLevel : FinancialLiteracyLevel)
    (questionCount : option float) (focusCategories : option (list FinancialCategory))
  : Result (list QuizQuestion) :=
  let questionCount := default 10%float questionCount in
  do availableQuestions <- call FinancialQuestionBank.getQuestions userLevel;
  let availableQuestions :=
    match focusCategories with
    | Some cats =>
        if (0 <? length cats)%nat
        then List.filter (fun q => includes_category cats (category q)) availableQuestions
        else availableQuestions
    | None => availableQuestions
    end in
  if PrimFloat.ltb (Z2float (Z.of_nat (length availableQuestions))) questionCount then
    Ok (shuffleArray rng availableQuestions)
  else
    Ok (slice_to (shuffleArray rng availableQuestions) questionCount).

(** Assignments to the three properties of a session that [scoreQuiz]
    writes. *)
Definition set_score (s : QuizSession) (v : Z) : QuizSession :=
  {| session_id := session_id s;
     user_level := user_level s;
     questions := questions s;
     user_answers := user_answers s;
     score := v;
     total_questions := total_questions s;
     time_taken := time_taken s;
     category_performance := category_performance s;
     completed_at := completed_at s |}.

Definition set_category_performance (s : QuizSession) (v : JsObject Z) : QuizSession :=
  {| session_id := session_id s;
     user_level := user_level s;
     questions := questions s;
     user_answers := user_answers s;
     score := score s;
     total_questions := total_questions s;
     time_taken := time_taken s;
     category_performance := v;
     completed_at := completed_at s |}.

Definition set_completed_at (s : QuizSession) (v : option Date) : QuizSession :=
  {| session_id := session_id s;
     user_level := user_level s;
     questions := questions s;
     user_answers := user_answers s;
     score := score s;
     total_questions := total_questions s;
     time_taken := time_taken s;
     category_performance := category_performance s;
     completed_at := v |}.

(** The body of the [forEach] callback of [scoreQuiz]. *)
Definition score_step (answers : list Z) (st : Z * JsObject Z)
    (q : QuizQuestion) (index : nat) : Z * JsObject Z :=
  let '(correctAnswers, categoryPerformance) := st in
  if answer_is answers index (correct q) then
    (correctAnswers + 1,
     set categoryPerformance (category q)
       (or_zero (get categoryPerformance (category q)) + 1))
  else st.

(** The session after the call, which is also the object returned. *)
Definition scoreQuiz (session : QuizSession) (now : Date) : QuizSession :=
  let '(correctAnswers, categoryPerformance) :=
    forEach (score_step (user_answers session)) (questions session) 0%nat (0, []) in
  let session := set_score session correctAnswers in
  let session := set_category_performance session categoryPerformance in
  let session := set_completed_at session (Some now) in
  session.

End QuizEngine.

(** ** Progress tracking system *)

Module ProgressTracker.

Local Open Scope Z_scope.

(** [array.push(x)] on the array at [a]. *)
Definition push (h : Heap) (a : loc) (x : string) : option Heap :=
  match arrays h !! a with
  | Some l => Some {| objects := objects h; arrays := <[a:=l ++ [x]]> (arrays h) |}
  | None => None
  end.

(** [[]]: a new array. *)
Definition alloc_array (h : Heap) : Heap * loc :=
  ({| objects := objects h; arrays := arrays h ++ [[]] |}, length (arrays h)).

(** [array.includes(x)] on the array at [a]. *)
Definition heap_includes (h : Heap) (a : loc) (x : string) : option bool :=
  match arrays h !! a with
  | Some l => Some (includes l x)
  | None => None
  end.

(** [obj[c] = v] on the object at [o]. *)
Definition store (h : Heap) (o : loc) (c : FinancialCategory) (v : float) : option Heap :=
  match objects h !! o with
  | Some m => Some {| objects := <[o:=set m c v]> (objects h); arrays := arrays h |}
  | None => None
  end.

(** [obj[c]] on the object at [o]. *)
Definition load (h : Heap) (o : loc) (c : FinancialCategory) : option (option float) :=
  match objects h !! o with
  | Some m => Some (get m c)
  | None => None
  end.

(** The spread [{...progress, total_quizzes_completed: _,
    total_questions_answered: _, overall_accuracy: _, last_activity: _}]:
    a new record whose [category_mastery] and [achievements] are the
    references [progress] holds. *)
Definition spread (progress : UserProgress) (quizzes answered : Z) (accuracy : float)
    (now : Date) : UserProgress :=
  {| p_user_id := p_user_id progress;
     current_level := current_level progress;
     total_quizzes_completed := quizzes;
     total_questions_answered := answered;
     overall_accuracy := accuracy;
     category_mastery := category_mastery progress;
     learning_streak := learning_streak progress;
     achievements := achievements progress;
     last_activity := Some now |}.

Definition set_achievements (p : UserProgress) (a : loc) : UserProgress :=
  {| p_user_id := p_user_id p;
     current_level := current_level p;
     total_quizzes_completed := total_quizzes_completed p;
     total_questions_answered := total_questions_answered p;
     overall_accuracy := overall_accuracy p;
     category_mastery := category_mastery p;
     learning_streak := learning_streak p;
     achievements := Some a;
     last_activity := last_activity p |}.

Definition set_learning_streak (p : UserProgress) (v : Z) : UserProgress :=
  {| p_user_id := p_user_id p;
     current_level := current_level p;
     total_quizzes_completed := total_quizzes_completed p;
     total_questions_answered := total_questions_answered p;
     overall_accuracy := overall_accuracy p;
     category_mastery := category_mastery p;
     learning_streak := v;
     achievements := achievements p;
     last_activity := last_activity p |}.

(** [progress.achievements || []]: the array of [progress], or a new one. *)
Definition achievements_or_new (h : Heap) (progress : UserProgress) : Heap * loc :=
  match achievements progress with
  | Some a => (h, a)
  | None => alloc_array h
  end.

(** The result is the array the achievements are in after the call. *)
Definition checkAchievements (h : Heap) (progress : UserProgress)
    (quizSession : QuizSession) : option (Heap * loc) :=
  let '(h, achievements) := achievements_or_new h progress in
  h ← (if score quizSession =? total_questions quizSession then
         has_perfect ← heap_includes h achievements "Perfect Score";
         if negb has_perfect then push h achievements "Perfect Score" else Some h
       else Some h);
  h ← (if total_quizzes_completed progress >=? 5 then
         has_whiz ← heap_includes h achievements "Quiz Whiz";
         if negb has_whiz then push h achievements "Quiz Whiz" else Some h
       else Some h);
  Some (h, achievements).

Definition calculateLearningStreak (lastActivity : option Date) (today : Date) : Z :=
  match lastActivity with
  | None => 1
  | Some t =>
      let daysDiff := (today - t) / (1000 * 60 * 60 * 24) in
      if daysDiff <=? 1 then 1 else 0
  end.

(** One round of the loop over [Object.entries(quizSession.category_performance)]. *)
Definition mastery_step (mastery : loc) (h : Heap) (entry : FinancialCategory * Z)
  : option Heap :=
  let '(c, s) := entry in
  cur ← load h mastery c;
  let currentScore := or_zero_f cur in
  let newScore := ((currentScore + Z2float s) / 2)%float in
  store h mastery c newScore.

Fixpoint update_mastery (mastery : loc) (h : Heap) (entries : JsObject Z) : option Heap :=
  match entries with
  | [] => Some h
  | e :: entries' =>
      h' ← mastery_step mastery h e;
      update_mastery mastery h' entries'
  end.

(** The new running accuracy. *)
Definition new_accuracy (progress : UserProgress) (quizSession : QuizSession) : float :=
  let totalCorrect :=
    (Z2float (total_questions_answered progress) * overall_accuracy progress / 100
     + Z2float (score quizSession))%float in
  let totalAnswered := total_questions_answered progress + total_questions quizSession in
  if totalAnswered >? 0
  then (totalCorrect / Z2float totalAnswered * 100)%float
  else 0%float.

(** [now] is the date written to [last_activity], [today] the one the streak
    is computed from.  [None]: the heap lacks an object that [progress]
    refers to, which no state of the program does. *)
Definition updateProgress (h : Heap) (progress : UserProgress) (quizSession : QuizSession)
    (now today : Date) : option (Heap * UserProgress) :=
  let totalAnswered := total_questions_answered progress + total_questions quizSession in
  let accuracy := new_accuracy progress quizSession in
  let updatedProgress :=
    spread progress (total_quizzes_completed progress + 1) totalAnswered accuracy now in
  h ← update_mastery (category_mastery updatedProgress) h (category_performance quizSession);
  '(h, a) ← checkAchievements h updatedProgress quizSession;
  let updatedProgress := set_achievements updatedProgress a in
  let updatedProgress :=
    set_learning_streak updatedProgress
      (calculateLearningStreak (last_activity progress) today) in
  Some (h, updatedProgress).

(** The advice drawn from a progress record: one line per category of the
    mastery object whose value is below 60, then two lines on the overall
    accuracy when it is below 70 or above 85. *)
Definition generateRecommendations (h : Heap) (progress : UserProgress)
  : option (list string) :=
  mastery ← objects h !! category_mastery progress;
  let recommendations :=
    fold_left
      (fun recommendations entry =>
         if PrimFloat.ltb (snd entry) 60
         then recommendations ++
                [String.append "Focus on improving "
                   (String.append (category_name (fst entry)) " knowledge")]
         else recommendations)
      mastery [] in
  let recommendations :=
    if PrimFloat.ltb (overall_accuracy progress) 70 then
      recommendations ++
        ["Review fundamental concepts in the glossary";
         "Try starting with easier quiz levels"]
    else if PrimFloat.ltb 85 (overall_accuracy progress) then
      recommendations ++
        ["Challenge yourself with advanced level quizzes";
         "Explore complex financial strategies"]
    else recommendations in
  Some recommendations.

End ProgressTracker.

(** ** Reference definitions

    What the statements below compare the program with. *)

(** The pairs [(i, questions[i])] with [answers[i] === questions[i].correct]. *)
Definition correct_entries (qs : list QuizQuestion) (answers : list Z)
  : list (nat * QuizQuestion) :=
  List.filter (fun iq => answer_is answers (fst iq) (correct (snd iq)))
    (combine (seq 0 (length qs)) qs).

Definition sumZ (l : list Z) : Z := fold_right Z.add 0%Z l.

(** The sum of the level weights of the correctly answered questions of
    level [l]. *)
Definition level_total (qs : list QuizQuestion) (answers : list Z)
    (l : FinancialLiteracyLevel) : Z :=
  sumZ (map (fun iq => AssessmentEngine.questionWeights (level (snd iq)))
          (List.filter (fun iq => level_eqb (level (snd iq)) l) (correct_entries qs answers))).

(** The sum of the difficulty weights of the correctly answered questions
    of category [c]. *)
Definition category_total (qs : list QuizQuestion) (answers : list Z)
    (c : FinancialCategory) : Z :=
  sumZ (map (fun iq => difficulty_weight (snd iq))
          (List.filter (fun iq => category_eqb (category (snd iq)) c) (correct_entries qs answers))).

(** The number of correctly answered questions of category [c]. *)
Definition category_count (qs : list QuizQuestion) (answers : list Z)
    (c : FinancialCategory) : Z :=
  Z.of_nat (length
    (List.filter (fun iq => category_eqb (category (snd iq)) c) (correct_entries qs answers))).

Definition all_categories : list FinancialCategory :=
  [savings; retirement; investing; credit; planning; economics; taxation;
   real_estate; education; insurance; budgeting; debt_management].

(** The value of [progress.achievements || []]. *)
Definition achievement_list (h : Heap) (p : UserProgress) : list string :=
  match achievements p with
  | Some a => default [] (arrays h !! a)
  | None => []
  end.

(** Every reference of [p] points into [h]. *)
Definition wf_progress (h : Heap) (p : UserProgress) : Prop :=
  (category_mastery p < length (objects h))%nat /\
  match achievements p with
  | Some a => (a < length (arrays h))%nat
  | None => True
  end.

(** The achievements after a session, from those before: what
    [checkAchievements] leaves in the array, for [quizzes] quizzes completed
    with this one. *)
Definition new_achievements (l : list string) (s : QuizSession) (quizzes : Z)
  : list string :=
  let l1 :=
    if (score s =? total_questions s)%Z && negb (includes l "Perfect Score")
    then l ++ ["Perfect Score"] else l in
  if (quizzes >=? 5)%Z && negb (includes l1 "Quiz Whiz")
  then l1 ++ ["Quiz Whiz"] else l1.

(** The mastery object of [p]. *)
Definition mastery_of (h : Heap) (p : UserProgress) : option (JsObject float) :=
  objects h !! category_mastery p.

(** No string occurs twice in [l]. *)
Fixpoint distinctb (l : list string) : bool :=
  match l with
  | [] => true
  | x :: l' => negb (includes l' x) && distinctb l'
  end.

(** A progress record with one mastery object and one achievement array,
    both empty, and sessions to fold into it. *)
Module Fixtures.

(** The questions of the bank that have level [l]. *)
Definition questions_at (l : FinancialLiteracyLevel) : list QuizQuestion :=
  List.filter (fun q => level_eqb (level q) l) FinancialQuestionBank.questions.

Definition heap0 : Heap := {| objects := [[]]; arrays := [[]] |}.

Definition progress0 : UserProgress :=
  {| p_user_id := "guest";
     current_level := novice;
     total_quizzes_completed := 0;
     total_questions_answered := 0;
     overall_accuracy := 0;
     category_mastery := 0;
     learning_streak := 0;
     achievements := Some 0%nat;
     last_activity := None |}.

Definition session_of (sc tq : Z) (perf : JsObject Z) : QuizSession :=
  {| session_id := "session";
     user_level := novice;
     questions := [];
     user_answers := [];
     score := sc;
     total_questions := tq;
     time_taken := 0;
     category_performance := perf;
     completed_at := None |}.

(** One question, answered correctly. *)
Definition perfect_session : QuizSession := session_of 1 1 [(savings, 1%Z)].

(** Eight of ten. *)
Definition session_8_of_10 : QuizSession :=
  session_of 8 10 [(savings, 5%Z); (credit, 3%Z)].

(** An unscored session on the novice questions. *)
Definition novice_session : QuizSession :=
  {| session_id := "session";
     user_level := novice;
     questions := questions_at novice;
     user_answers := [1; 1; 1; 2; 0]%Z;
     score := 0;
     total_questions := 10;
     time_taken := 0;
     category_performance := [];
     completed_at := None |}.

(** The novice questions, no answer given. *)
Definition unanswered_session : QuizSession :=
  {| session_id := "session";
     user_level := novice;
     questions := questions_at novice;
     user_answers := [];
     score := 3;
     total_questions := 10;
     time_taken := 0;
     category_performance := [(savings, 3%Z)];
     completed_at := None |}.

(** The intermediate questions, each with its correct answer. *)
Definition all_correct_session : QuizSession :=
  {| session_id := "session";
     user_level := intermediate;
     questions := questions_at intermediate;
     user_answers := map correct (questions_at intermediate);
     score := 0;
     total_questions := 6;
     time_taken := 0;
     category_performance := [];
     completed_at := None |}.

(** A record whose [achievements] is [undefined]. *)
Definition progress_without_achievements : UserProgress :=
  {| p_user_id := "guest";
     current_level := novice;
     total_quizzes_completed := 0;
     total_questions_answered := 0;
     overall_accuracy := 0;
     category_mastery := 0;
     learning_streak := 0;
     achievements := None;
     last_activity := None |}.

(** Two users: the objects of [progress0], and those of [other_progress]. *)
Definition heap2 : Heap :=
  {| objects := [[]; [(credit, 70%float)]];
     arrays := [[]; ["Quiz Whiz"]] |}.

Definition other_progress : UserProgress :=
  {| p_user_id := "other";
     current_level := advanced;
     total_quizzes_completed := 7;
     total_questions_answered := 70;
     overall_accuracy := 90;
     category_mastery := 1;
     learning_streak := 1;
     achievements := Some 1%nat;
     last_activity := Some 0%Z |}.

(** A record after four quizzes, last active at time 0. *)
Definition progress4 : UserProgress :=
  {| p_user_id := "guest";
     current_level := intermediate;
     total_quizzes_completed := 4;
     total_questions_answered := 40;
     overall_accuracy := 50;
     category_mastery := 0;
     learning_streak := 1;
     achievements := Some 0%nat;
     last_activity := Some 0%Z |}.

End Fixtures.

(** * Properties *)

(** ** Objects keyed by category *)

Section JsObjectFacts.

Context {V : Type}.
Implicit Types (o : JsObject V) (k c : FinancialCategory) (v : V).

Lemma category_eqb_refl k : category_eqb k k = true.
Proof. unfold category_eqb. by rewrite bool_decide_eq_true. Qed.

Lemma category_eqb_true k c : category_eqb k c = true <-> k = c.
Proof. unfold category_eqb. by rewrite bool_decide_eq_true. Qed.

Lemma category_eqb_false k c : category_eqb k c = false <-> k <> c.
Proof. unfold category_eqb. by rewrite bool_decide_eq_false. Qed.

Lemma get_set_eq o k v : get (set o k v) k = Some v.
Proof.
  induction o as [|[k' v'] o IH]; simpl.
  - by rewrite category_eqb_refl.
  - destruct (category_eqb k' k) eqn:E; simpl; rewrite E; auto.
Qed.

Lemma get_set_ne o k c v : k <> c -> get (set o k v) c = get o c.
Proof.
  intros Hne. induction o as [|[k' v'] o IH]; simpl.
  - apply category_eqb_false in Hne. by rewrite Hne.
  - destruct (category_eqb k' k) eqn:E; simpl.
    + apply category_eqb_true in E. subst k'.
      apply category_eqb_false in Hne. by rewrite Hne.
    + by rewrite IH.
Qed.

Lemma get_set o k c v :
  get (set o k v) c = if category_eqb k c then Some v else get o c.
Proof.
  destruct (category_eqb k c) eqn:E.
  - apply category_eqb_true in E. subst. apply get_set_eq.
  - apply category_eqb_false in E. by apply get_set_ne.
Qed.

(** Writing a property that is there keeps the keys and their order. *)
Lemma keys_set_present o k v :
  In k (map fst o) -> map fst (set o k v) = map fst o.
Proof.
  induction o as [|[k' v'] o IH]; simpl; [tauto|].
  intros [->|Hin].
  - by rewrite category_eqb_refl.
  - destruct (category_eqb k' k); simpl; [done|]. by rewrite IH.
Qed.

Lemma get_In_keys o k : In k (map fst o) <-> get o k <> None.
Proof.
  induction o as [|[k' v'] o IH]; simpl; [tauto|].
  destruct (category_eqb k' k) eqn:E.
  - apply category_eqb_true in E. split; [done|auto].
  - apply category_eqb_false in E. rewrite <- IH. tauto.
Qed.

(** With distinct keys, an entry is what [get] reads. *)
Lemma In_get_NoDup o k v :
  List.NoDup (map fst o) -> (In (k, v) o <-> get o k = Some v).
Proof.
  induction o as [|[k' v'] o IH]; simpl; intros Hnd.
  - split; [tauto|discriminate].
  - apply List.NoDup_cons_iff in Hnd as [Hk' Hnd].
    destruct (category_eqb k' k) eqn:E.
    + apply category_eqb_true in E. subst k'. split.
      * intros [[= ->]|Hin]; [done|].
        exfalso. apply Hk'. apply in_map_iff. by exists (k, v).
      * intros [= ->]. by left.
    + apply category_eqb_false in E. rewrite <- (IH Hnd). split.
      * intros [[= -> ->]|Hin]; [done|done].
      * auto.
Qed.

End JsObjectFacts.

(** ** Lists *)

Lemma includes_In (l : list string) (x : string) : includes l x = true <-> In x l.
Proof.
  unfold includes. rewrite existsb_exists. split.
  - intros (y & Hy & E). apply String.eqb_eq in E. by subst.
  - intros H. exists x. split; [done|apply String.eqb_refl].
Qed.

Lemma includes_category_In (l : list FinancialCategory) (c : FinancialCategory) :
  includes_category l c = true <-> In c l.
Proof.
  unfold includes_category. rewrite existsb_exists. split.
  - intros (y & Hy & E). apply category_eqb_true in E. by subst.
  - intros H. exists c. split; [done|apply category_eqb_refl].
Qed.

Lemma distinctb_NoDup (l : list string) : distinctb l = true -> List.NoDup l.
Proof.
  induction l as [|x l IH]; simpl; intros H; constructor.
  - apply andb_true_iff in H as [H _]. apply negb_true_iff in H.
    intros Hin. apply includes_In in Hin. congruence.
  - apply IH. by apply andb_true_iff in H as [_ H].
Qed.

Lemma NoDup_of_map {A B : Type} (f : A -> B) (l : list A) :
  List.NoDup (map f l) -> List.NoDup l.
Proof.
  induction l as [|x l IH]; simpl; intros H; constructor.
  - apply List.NoDup_cons_iff in H as [H _]. intros Hin. apply H. by apply in_map.
  - apply IH. by apply List.NoDup_cons_iff in H as [_ H].
Qed.

Lemma level_eqb_true (a b : FinancialLiteracyLevel) : level_eqb a b = true <-> a = b.
Proof. unfold level_eqb. by rewrite bool_decide_eq_true. Qed.

(** ** The question bank and the glossary *)

Module BankFacts.

Import FinancialQuestionBank.

Lemma question_ids_distinct : List.NoDup (map id questions).
Proof. apply distinctb_NoDup. vm_compute. reflexivity. Qed.

Lemma questions_NoDup : List.NoDup questions.
Proof. apply (NoDup_of_map id), question_ids_distinct. Qed.

Lemma term_ids_distinct : List.NoDup (map t_id terms).
Proof. apply distinctb_NoDup. vm_compute. reflexivity. Qed.

(** C1. [questionBank.getQuestions(level)], the call by which the quiz
    engine asks the bank for the questions of a level, raises a [TypeError]
    for every level: the class has no method of that name. *)
Theorem getQuestions_raises (userLevel : FinancialLiteracyLevel) :
  call getQuestions userLevel = Throw TypeError.
Proof. reflexivity. Qed.

(** *** Related terms *)

Lemma filterM_all_false {A : Type} (l : list A) :
  filterM (fun _ => Ok false) l = Ok [].
Proof. induction l as [|x l IH]; simpl; [done|]. by rewrite IH. Qed.

(** An unknown id gives the empty sequence, whatever the table. *)
Lemma getRelatedTermsIn_unknown (ts : list GlossaryTerm) (termId : string) :
  ~ In termId (map t_id ts) -> getRelatedTermsIn ts termId = Ok [].
Proof.
  intros Hno. unfold getRelatedTermsIn.
  destruct (find _ ts) as [t0|] eqn:E; [|done].
  apply find_some in E as [Hin Heq]. apply String.eqb_eq in Heq.
  exfalso. apply Hno. rewrite <- Heq. by apply in_map.
Qed.

(** A term with an empty [related_terms] array has no related term. *)
Lemma getRelatedTermsIn_empty (ts : list GlossaryTerm) (termId : string) (t0 : GlossaryTerm) :
  find (fun t => String.eqb (t_id t) termId) ts = Some t0 ->
  related_terms t0 = Some [] ->
  getRelatedTermsIn ts termId = Ok [].
Proof.
  intros Hfind Hrel. unfold getRelatedTermsIn. rewrite Hfind.
  unfold related_includes. rewrite Hrel. simpl. apply filterM_all_false.
Qed.

(** A term whose literal leaves [related_terms] out makes the lookup throw. *)
Lemma getRelatedTermsIn_omitted (ts : list GlossaryTerm) (termId : string) (t0 : GlossaryTerm) :
  find (fun t => String.eqb (t_id t) termId) ts = Some t0 ->
  related_terms t0 = None ->
  getRelatedTermsIn ts termId = Throw TypeError.
Proof.
  intros Hfind Hrel. unfold getRelatedTermsIn. rewrite Hfind.
  destruct ts as [|t ts]; [discriminate|].
  simpl. unfold related_includes. by rewrite Hrel.
Qed.

(** The ids of the glossary whose lookup throws. *)
Lemma getRelatedTerms_throwing :
  List.filter
    (fun i => match getRelatedTerms i with Throw _ => true | Ok _ => false end)
    (map t_id terms)
  = ["inflation"; "mortgage"; "etf"; "mutual_fund"; "sharpe_ratio"; "reit"].
Proof. vm_compute. reflexivity. Qed.

(** C7. [getRelatedTerms("inflation")] raises a [TypeError]: the literal of
    that term has no [related_terms], and the callback of [filter] calls
    [includes] on it. *)
Theorem getRelatedTerms_inflation_throws :
  In "inflation" (map t_id terms) /\
  getRelatedTerms "inflation" = Throw TypeError.
Proof. split; [vm_compute; tauto|vm_compute; reflexivity]. Qed.

End BankFacts.

(** ** Loops over the questions *)

Section Loops.

Context {A S : Type}.

(** [forEach] visits the elements with their indices, in order. *)
Lemma forEach_fold (f : S -> A -> nat -> S) (l : list A) (index : nat) (s : S) :
  forEach f l index s
  = fold_left (fun s ix => f s (snd ix) (fst ix)) (combine (seq index (length l)) l) s.
Proof.
  revert index s. induction l as [|x l IH]; intros index s; simpl; [done|].
  apply IH.
Qed.

(** A body guarded by a test runs on the elements that pass it. *)
Lemma fold_left_guarded {B : Type} (f g : S -> B -> S) (p : B -> bool) (l : list B) (s : S) :
  (forall s x, f s x = if p x then g s x else s) ->
  fold_left f l s = fold_left g (List.filter p l) s.
Proof.
  intros Hf. revert s. induction l as [|x l IH]; intros s; simpl; [done|].
  rewrite Hf. destruct (p x); simpl; apply IH.
Qed.

End Loops.

(** [o[key x] = (o[key x] || 0) + w x] for each [x] of [l]. *)
Section Bumps.

Context {A : Type} (key : A -> FinancialCategory) (w : A -> Z).

Let bump (o : JsObject Z) (x : A) : JsObject Z :=
  set o (key x) (or_zero (get o (key x)) + w x)%Z.

Lemma get_bumps (l : list A) (o : JsObject Z) (c : FinancialCategory) :
  get (fold_left bump l o) c =
  match List.filter (fun x => category_eqb (key x) c) l with
  | [] => get o c
  | l' => Some (or_zero (get o c) + sumZ (map w l'))%Z
  end.
Proof.
  revert o. induction l as [|x l IH]; intros o; simpl; [done|].
  rewrite IH. unfold bump. rewrite get_set.
  destruct (category_eqb (key x) c) eqn:E.
  - apply category_eqb_true in E. rewrite E.
    destruct (List.filter _ l); simpl; f_equal; unfold sumZ; simpl; lia.
  - reflexivity.
Qed.

Lemma keys_bumps_dense (l : list A) (o : JsObject Z) :
  (forall c, In c (map fst o)) -> map fst (fold_left bump l o) = map fst o.
Proof.
  revert o. induction l as [|x l IH]; intros o Hall; simpl; [done|].
  assert (E : map fst (bump o x) = map fst o) by (apply keys_set_present, Hall).
  rewrite IH; [done|]. intros c. rewrite E. apply Hall.
Qed.

Lemma keys_set_NoDup (o : JsObject Z) (k : FinancialCategory) (v : Z) :
  List.NoDup (map fst o) -> List.NoDup (map fst (set o k v)).
Proof.
  induction o as [|[k' v'] o IH]; simpl; intros Hnd.
  - constructor; [tauto|constructor].
  - apply List.NoDup_cons_iff in Hnd as [Hk' Hnd].
    destruct (category_eqb k' k) eqn:E; simpl.
    + by constructor.
    + constructor; [|by apply IH].
      intros Hin. apply get_In_keys in Hin.
      apply category_eqb_false in E. rewrite get_set_ne in Hin by done.
      by apply get_In_keys in Hin.
Qed.

Lemma keys_bumps_NoDup (l : list A) (o : JsObject Z) :
  List.NoDup (map fst o) -> List.NoDup (map fst (fold_left bump l o)).
Proof.
  revert o. induction l as [|x l IH]; intros o Hnd; simpl; [done|].
  apply IH. by apply keys_set_NoDup.
Qed.

End Bumps.

Lemma NoDup_map_filter {A B : Type} (f : A -> B) (p : A -> bool) (l : list A) :
  List.NoDup (map f l) -> List.NoDup (map f (List.filter p l)).
Proof.
  induction l as [|x l IH]; simpl; intros Hnd; [done|].
  apply List.NoDup_cons_iff in Hnd as [Hx Hnd].
  destruct (p x); simpl; [|by apply IH].
  constructor; [|by apply IH].
  intros Hin. apply Hx. apply in_map_iff in Hin as (y & <- & Hy).
  apply filter_In in Hy as [Hy _]. by apply in_map.
Qed.

(** ** The correct entries, by index *)

Lemma answer_is_true (answers : list Z) (i : nat) (c : Z) :
  answer_is answers i c = true <-> answers !! i = Some c.
Proof.
  unfold answer_is. destruct (answers !! i) as [a|]; [|split; discriminate].
  rewrite Z.eqb_eq. split; congruence.
Qed.

Lemma In_combine_seq {A : Type} (l : list A) (start i : nat) (x : A) :
  In (i, x) (combine (seq start (length l)) l)
  <-> (start <= i)%nat /\ l !! (i - start)%nat = Some x.
Proof.
  revert start. induction l as [|a l IH]; intros start; simpl.
  - split; [tauto|]. intros [_ H]. discriminate.
  - rewrite IH. split.
    + intros [[= <- <-]|[Hle Hl]].
      * split; [lia|]. by rewrite Nat.sub_diag.
      * split; [lia|]. replace (i - start)%nat with (S (i - S start)) by lia. done.
    + intros [Hle Hl]. destruct (decide (i = start)) as [->|Hne].
      * rewrite Nat.sub_diag in Hl. simpl in Hl. left. congruence.
      * right. split; [lia|].
        replace (i - start)%nat with (S (i - S start)) in Hl by lia. done.
Qed.

(** [(i, q)] is a correct entry when [q] is [questions[i]] and
    [answers[i]] is its correct index. *)
Lemma correct_entries_spec (qs : list QuizQuestion) (answers : list Z)
    (i : nat) (q : QuizQuestion) :
  In (i, q) (correct_entries qs answers)
  <-> qs !! i = Some q /\ answers !! i = Some (correct q).
Proof.
  unfold correct_entries. rewrite filter_In, In_combine_seq, answer_is_true. simpl.
  rewrite Nat.sub_0_r. split; [tauto|]. intros [H1 H2]. split; [split; [lia|done]|done].
Qed.

(** Each index is counted once. *)
Lemma correct_entries_NoDup (qs : list QuizQuestion) (answers : list Z) :
  List.NoDup (map fst (correct_entries qs answers)).
Proof.
  unfold correct_entries. apply NoDup_map_filter.
  assert (E : forall (l : list QuizQuestion) (l' : list nat),
            length l' = length l -> map fst (combine l' l) = l').
  { intros l l'. revert l. induction l' as [|a l' IH]; intros [|b l] H; simpl in *;
      try done. f_equal. apply IH. lia. }
  rewrite E by apply length_seq. apply List.seq_NoDup.
Qed.

(** ** Scoring a quiz *)

Module ScoreFacts.

Import QuizEngine.

Local Open Scope Z_scope.

(** The loop of [scoreQuiz] counts the correct entries and bumps their
    categories. *)
Lemma score_loop (answers : list Z) (qs : list QuizQuestion) (n : Z) (o : JsObject Z) :
  forEach (score_step answers) qs 0%nat (n, o)
  = (n + Z.of_nat (length (correct_entries qs answers)),
     fold_left
       (fun o iq => set o (category (snd iq)) (or_zero (get o (category (snd iq))) + 1))
       (correct_entries qs answers) o).
Proof.
  rewrite forEach_fold.
  rewrite (fold_left_guarded _
    (fun st iq =>
       (fst st + 1,
        set (snd st) (category (snd iq)) (or_zero (get (snd st) (category (snd iq))) + 1)))
    (fun iq => answer_is answers (fst iq) (correct (snd iq)))).
  - fold (correct_entries qs answers).
    generalize (correct_entries qs answers) as l. intros l. revert n o.
    induction l as [|x l IH]; intros n o; simpl.
    + f_equal. lia.
    + rewrite IH. f_equal. lia.
  - intros [m o'] [i q]. unfold score_step. simpl.
    by destruct (answer_is answers i (correct q)).
Qed.

Lemma scoreQuiz_score (s : QuizSession) (now : Date) :
  score (scoreQuiz s now) = Z.of_nat (length (correct_entries (questions s) (user_answers s))).
Proof. unfold scoreQuiz. rewrite score_loop. reflexivity. Qed.

Lemma scoreQuiz_category_performance (s : QuizSession) (now : Date) :
  category_performance (scoreQuiz s now)
  = fold_left
      (fun o iq => set o (category (snd iq)) (or_zero (get o (category (snd iq))) + 1))
      (correct_entries (questions s) (user_answers s)) [].
Proof. unfold scoreQuiz. rewrite score_loop. reflexivity. Qed.

Lemma sumZ_ones {A : Type} (l : list A) : sumZ (map (fun _ => 1) l) = Z.of_nat (length l).
Proof. induction l as [|x l IH]; simpl; [done|]. unfold sumZ in *. simpl. lia. Qed.

(** What [scoreQuiz] leaves alone. *)
Lemma scoreQuiz_inputs (s : QuizSession) (now : Date) :
  questions (scoreQuiz s now) = questions s /\
  user_answers (scoreQuiz s now) = user_answers s.
Proof.
  unfold scoreQuiz.
  destruct (forEach _ _ _ _) as [n o]. simpl. done.
Qed.

(** C9. [scoreQuiz] sets [score] to the number of indices [i] with
    [user_answers[i]] equal to the correct index of [questions[i]], and
    [category_performance] to the object that maps each category with at
    least one correct answer to its number of correct answers and has no
    other key; both depend on [questions] and [user_answers] only, so that
    scoring the scored session again gives the same score and the same
    [category_performance].  The indices counted are [entries]: each pair of
    an index [i] and the question [q] at [i] whose answer at [i] is
    [correct q], once. *)
Theorem scoreQuiz_counts_correct_answers (s : QuizSession) (now now' : Date) :
  let r := scoreQuiz s now in
  let entries := correct_entries (questions s) (user_answers s) in
  (forall i q, In (i, q) entries
               <-> questions s !! i = Some q /\ user_answers s !! i = Some (correct q)) /\
  List.NoDup (map fst entries) /\
  score r = Z.of_nat (length entries) /\
  (forall c,
     let n := Z.of_nat (length (List.filter
                                  (fun iq => category_eqb (category (snd iq)) c) entries)) in
     get (category_performance r) c = if n =? 0 then None else Some n) /\
  List.NoDup (map fst (category_performance r)) /\
  score (scoreQuiz r now') = score r /\
  category_performance (scoreQuiz r now') = category_performance r.
Proof.
  intros r entries. subst r entries.
  destruct (scoreQuiz_inputs s now) as [Hq Ha].
  split; [intros i q; apply correct_entries_spec|].
  split; [apply correct_entries_NoDup|].
  split; [apply scoreQuiz_score|]. split; [|split; [|split]].
  - intros c. cbv zeta. rewrite scoreQuiz_category_performance.
    rewrite (get_bumps (fun iq : nat * QuizQuestion => category (snd iq)) (fun _ => 1)).
    destruct (List.filter _ (correct_entries _ _)) as [|x l] eqn:E; [done|].
    rewrite sumZ_ones. simpl get. simpl or_zero.
    destruct (Z.eqb_spec (Z.of_nat (length (x :: l))) 0) as [H0|_]; [simpl in H0; lia|].
    f_equal.
  - rewrite scoreQuiz_category_performance.
    apply (keys_bumps_NoDup (fun iq : nat * QuizQuestion => category (snd iq)) (fun _ => 1)).
    constructor.
  - rewrite !scoreQuiz_score. by rewrite Hq, Ha.
  - rewrite !scoreQuiz_category_performance. by rewrite Hq, Ha.
Qed.

(** C10. [scoreQuiz] writes [score], [category_performance] and
    [completed_at] only: the other six fields of the session it returns are
    those of the session it was given. *)
Theorem scoreQuiz_frame (s : QuizSession) (now : Date) :
  let r := scoreQuiz s now in
  session_id r = session_id s /\
  user_level r = user_level s /\
  questions r = questions s /\
  user_answers r = user_answers s /\
  total_questions r = total_questions s /\
  time_taken r = time_taken s.
Proof.
  unfold scoreQuiz. destruct (forEach _ _ _ _) as [n o]. simpl. done.
Qed.

(** The novice questions answered [1, 1, 1, 2, 0, ...]: four correct. *)
Example scoreQuiz_novice_session :
  let r := scoreQuiz Fixtures.novice_session 5 in
  score r = 4 /\
  category_performance r = [(retirement, 1); (savings, 2); (credit, 1)] /\
  completed_at r = Some 5.
Proof. vm_compute. done. Qed.

End ScoreFacts.

(** ** The assessment *)

Module AssessFacts.

Import AssessmentEngine.

Local Open Scope Z_scope.

Lemma level_eqb_false (a b : FinancialLiteracyLevel) : level_eqb a b = false <-> a <> b.
Proof. unfold level_eqb. by rewrite bool_decide_eq_false. Qed.

Lemma level_score_add (s : LevelScores) (l l' : FinancialLiteracyLevel) (w : Z) :
  level_score (add_level_score s l w) l'
  = if level_eqb l l' then level_score s l' + w else level_score s l'.
Proof. destruct l, l'; reflexivity. Qed.

(** The loop of [assessUser], on the correct entries. *)
Lemma accumulate_fold (qs : list QuizQuestion) (answers : list Z) :
  accumulate qs answers
  = (fold_left
       (fun sc iq => add_level_score sc (level (snd iq)) (questionWeights (level (snd iq))))
       (correct_entries qs answers) initialScores,
     fold_left
       (fun o iq =>
          set o (category (snd iq))
            (or_zero (get o (category (snd iq))) + difficulty_weight (snd iq)))
       (correct_entries qs answers) initialCategoryScores).
Proof.
  unfold accumulate. rewrite forEach_fold.
  rewrite (fold_left_guarded _
    (fun st iq =>
       (add_level_score (fst st) (level (snd iq)) (questionWeights (level (snd iq))),
        set (snd st) (category (snd iq))
          (or_zero (get (snd st) (category (snd iq))) + difficulty_weight (snd iq))))
    (fun iq => answer_is answers (fst iq) (correct (snd iq)))).
  - fold (correct_entries qs answers).
    generalize (correct_entries qs answers) as l.
    generalize initialScores as sc. generalize initialCategoryScores as o.
    intros o sc l. revert o sc.
    induction l as [|x l IH]; intros o sc; simpl; [done|]. by rewrite IH.
  - intros [sc o] [i q]. unfold assess_step. simpl.
    by destruct (answer_is answers i (correct q)).
Qed.

Lemma level_score_fold (l : list (nat * QuizQuestion)) (sc : LevelScores)
    (lv : FinancialLiteracyLevel) :
  level_score
    (fold_left
       (fun sc iq => add_level_score sc (level (snd iq)) (questionWeights (level (snd iq))))
       l sc) lv
  = level_score sc lv
    + sumZ (map (fun iq => questionWeights (level (snd iq)))
              (List.filter (fun iq => level_eqb (level (snd iq)) lv) l)).
Proof.
  revert sc. induction l as [|x l IH]; intros sc; simpl.
  - unfold sumZ. simpl. lia.
  - rewrite IH, level_score_add.
    destruct (level_eqb (level (snd x)) lv); unfold sumZ; simpl; lia.
Qed.

(** The level accumulators are the sums of the level weights of the
    correct answers. *)
Lemma accumulate_level (qs : list QuizQuestion) (answers : list Z)
    (lv : FinancialLiteracyLevel) :
  level_score (fst (accumulate qs answers)) lv = level_total qs answers lv.
Proof.
  rewrite accumulate_fold. simpl fst. rewrite level_score_fold.
  unfold level_total. by destruct lv.
Qed.

Lemma initial_keys_all (c : FinancialCategory) : In c (map fst initialCategoryScores).
Proof. destruct c; simpl; tauto. Qed.

Lemma initial_keys_NoDup : List.NoDup (map fst initialCategoryScores).
Proof. apply NoDup_ListNoDup. apply (bool_decide_unpack _). vm_compute. exact I. Qed.

Lemma initial_get (c : FinancialCategory) : get initialCategoryScores c = Some 0.
Proof. by destruct c. Qed.

(** The category accumulators: all twelve keys, in the order of the
    literal, each with the sum of the difficulty weights of the correct
    answers of the category. *)
Lemma accumulate_keys (qs : list QuizQuestion) (answers : list Z) :
  map fst (snd (accumulate qs answers)) = all_categories.
Proof.
  rewrite accumulate_fold. simpl snd.
  rewrite (keys_bumps_dense (fun iq : nat * QuizQuestion => category (snd iq))
             (fun iq => difficulty_weight (snd iq))).
  - reflexivity.
  - apply initial_keys_all.
Qed.

Lemma accumulate_category (qs : list QuizQuestion) (answers : list Z)
    (c : FinancialCategory) :
  get (snd (accumulate qs answers)) c = Some (category_total qs answers c).
Proof.
  rewrite accumulate_fold. simpl snd.
  rewrite (get_bumps (fun iq : nat * QuizQuestion => category (snd iq))
             (fun iq => difficulty_weight (snd iq))).
  unfold category_total. rewrite initial_get.
  by destruct (List.filter _ (correct_entries qs answers)).
Qed.

(** The fields of the result, in terms of the accumulators. *)
Lemma assessWith_fields (qs : list QuizQuestion) (answers : list Z) (now : Date) :
  let r := assessWith qs answers now in
  primary_level r = choose_level (fst (accumulate qs answers)) /\
  category_scores r = snd (accumulate qs answers) /\
  improvement_areas r
  = map fst (List.filter (fun e => snd e <? 5) (snd (accumulate qs answers))) /\
  strengths r
  = map fst (List.filter (fun e => snd e >=? 5) (snd (accumulate qs answers))).
Proof.
  unfold assessWith. destruct (accumulate qs answers) as [sc o]. simpl. done.
Qed.

Lemma choose_level_cases (s : LevelScores) :
  choose_level s
  = if s_intermediate s >? s_novice s
    then (if s_advanced s >? s_intermediate s then advanced else intermediate)
    else (if s_advanced s >? s_novice s then advanced else novice).
Proof.
  unfold choose_level. by destruct (s_intermediate s >? s_novice s).
Qed.

(** Membership in the two lists, for any pretest. *)
Lemma assessWith_membership (qs : list QuizQuestion) (answers : list Z) (now : Date)
    (c : FinancialCategory) :
  let r := assessWith qs answers now in
  let sc := category_total qs answers c in
  get (category_scores r) c = Some sc /\
  (In c (improvement_areas r) <-> sc < 5) /\
  (In c (strengths r) <-> 5 <= sc) /\
  List.NoDup (strengths r) /\
  List.NoDup (improvement_areas r).
Proof.
  intros r sc.
  destruct (assessWith_fields qs answers now) as (_ & Hcs & Himp & Hstr).
  fold r in Hcs, Himp, Hstr.
  pose proof (accumulate_category qs answers c) as Hget. fold sc in Hget.
  assert (Hnd : List.NoDup (map fst (snd (accumulate qs answers)))).
  { rewrite accumulate_keys. apply initial_keys_NoDup. }
  assert (Hmem : forall p : FinancialCategory * Z -> bool,
            In c (map fst (List.filter p (snd (accumulate qs answers)))) <-> p (c, sc) = true).
  { intros p. rewrite in_map_iff. split.
    - intros ([c' v] & E & Hin). simpl in E. subst c'.
      apply filter_In in Hin as [Hin Hp].
      apply (In_get_NoDup _ _ _ Hnd) in Hin. rewrite Hget in Hin.
      by injection Hin as ->.
    - intros Hp. exists (c, sc). split; [done|].
      apply filter_In. split; [|done]. by apply (In_get_NoDup _ _ _ Hnd). }
  rewrite Hcs, Himp, Hstr. repeat split.
  - done.
  - intros H. apply Hmem in H. simpl in H. lia.
  - intros H. apply Hmem. simpl. lia.
  - intros H. apply Hmem in H. simpl in H. lia.
  - intros H. apply Hmem. simpl. lia.
  - by apply NoDup_map_filter.
  - by apply NoDup_map_filter.
Qed.

(** C4. [assessUser] chooses [primary_level] by two strict comparisons:
    intermediate replaces novice only when its accumulator is strictly
    greater, then advanced replaces the winner only when strictly greater,
    so that a tie goes to the lower level.  On the pretest, the all-correct
    answers [1, 2, 0, 0, 2] give the accumulators novice 2, intermediate 4,
    advanced 3 and the level intermediate. *)
Theorem assessUser_primary_level (answers : list Z) (now : Date) :
  let r := assessUser answers now in
  let n := level_total assessmentQuestions answers novice in
  let i := level_total assessmentQuestions answers intermediate in
  let a := level_total assessmentQuestions answers advanced in
  fst (accumulate assessmentQuestions answers)
  = {| s_novice := n; s_intermediate := i; s_advanced := a |} /\
  primary_level r
  = (if i >? n
     then (if a >? i then advanced else intermediate)
     else (if a >? n then advanced else novice)) /\
  (primary_level r = novice <-> i <= n /\ a <= n) /\
  (primary_level r = intermediate <-> n < i /\ a <= i) /\
  (primary_level r = advanced <-> n < a /\ i < a) /\
  fst (accumulate assessmentQuestions [1; 2; 0; 0; 2])
  = {| s_novice := 2; s_intermediate := 4; s_advanced := 3 |} /\
  primary_level (assessUser [1; 2; 0; 0; 2] now) = intermediate.
Proof.
  intros r n i a.
  assert (Hacc : fst (accumulate assessmentQuestions answers)
                 = {| s_novice := n; s_intermediate := i; s_advanced := a |}).
  { pose proof (accumulate_level assessmentQuestions answers novice) as Hn.
    pose proof (accumulate_level assessmentQuestions answers intermediate) as Hi.
    pose proof (accumulate_level assessmentQuestions answers advanced) as Ha.
    destruct (fst (accumulate assessmentQuestions answers)) as [n' i' a'].
    simpl in Hn, Hi, Ha. subst n i a. congruence. }
  assert (Hlevel : primary_level r
                   = (if i >? n
                      then (if a >? i then advanced else intermediate)
                      else (if a >? n then advanced else novice))).
  { destruct (assessWith_fields assessmentQuestions answers now) as (Hp & _).
    unfold r, assessUser. rewrite Hp, Hacc. apply choose_level_cases. }
  split; [exact Hacc|]. split; [exact Hlevel|].
  rewrite Hlevel.
  split; [|split; [|split; [|split]]].
  - destruct (Z.gtb_spec i n), (Z.gtb_spec a i), (Z.gtb_spec a n);
      split; try discriminate; try lia; done.
  - destruct (Z.gtb_spec i n), (Z.gtb_spec a i), (Z.gtb_spec a n);
      split; try discriminate; try lia; done.
  - destruct (Z.gtb_spec i n), (Z.gtb_spec a i), (Z.gtb_spec a n);
      split; try discriminate; try lia; done.
  - vm_compute. reflexivity.
  - vm_compute. reflexivity.
Qed.

(** C5. In the result of [assessUser], each of the twelve categories is in
    exactly one of [strengths] and [improvement_areas]: in
    [improvement_areas] when its accumulated score is below 5, zero
    included, and in [strengths] when it is 5 or more; neither list
    repeats a category. *)
Theorem assessUser_partition (answers : list Z) (now : Date) (c : FinancialCategory) :
  let r := assessUser answers now in
  let sc := category_total assessmentQuestions answers c in
  In c all_categories /\
  get (category_scores r) c = Some sc /\
  (In c (improvement_areas r) <-> sc < 5) /\
  (In c (strengths r) <-> 5 <= sc) /\
  (In c (strengths r) \/ In c (improvement_areas r)) /\
  ~ (In c (strengths r) /\ In c (improvement_areas r)) /\
  List.NoDup (strengths r) /\
  List.NoDup (improvement_areas r).
Proof.
  intros r sc.
  destruct (assessWith_membership assessmentQuestions answers now c)
    as (Hget & Himp & Hstr & Hnd1 & Hnd2).
  fold (assessUser answers now) in Hget, Himp, Hstr, Hnd1, Hnd2.
  fold r in Hget, Himp, Hstr, Hnd1, Hnd2. fold sc in Hget, Himp, Hstr.
  split; [destruct c; simpl; tauto|].
  split; [exact Hget|]. split; [exact Himp|]. split; [exact Hstr|].
  split; [|split; [|split]]; try done.
  - destruct (Z.lt_ge_cases sc 5); [right; tauto|left; tauto].
  - intros [H1 H2]. apply Hstr in H1. apply Himp in H2. lia.
Qed.

(** C6, refuted: with no correct answer every category has score 0, and
    all of them are improvement areas. *)
Lemma zero_score_category_listed :
  ~ (forall (answers : list Z) (now : Date) (c : FinancialCategory),
       let r := assessUser answers now in
       get (category_scores r) c = Some 0 ->
       ~ In c (strengths r) /\ ~ In c (improvement_areas r)).
Proof.
  intros H. destruct (H [] 0 savings) as [_ Hno]; [reflexivity|].
  apply Hno. vm_compute. tauto.
Qed.

(** C6, amended. In the result of [assessUser], [strengths] and
    [improvement_areas] partition all twelve categories, whatever their
    score, and a category whose accumulated score is 0 is in
    [improvement_areas] and not in [strengths]. *)
Theorem zero_score_in_improvement_areas (answers : list Z) (now : Date)
    (c : FinancialCategory) :
  let r := assessUser answers now in
  (In c (strengths r) \/ In c (improvement_areas r)) /\
  ~ (In c (strengths r) /\ In c (improvement_areas r)) /\
  (get (category_scores r) c = Some 0 ->
   In c (improvement_areas r) /\ ~ In c (strengths r)).
Proof.
  intros r.
  destruct (assessWith_membership assessmentQuestions answers now c)
    as (Hget & Himp & Hstr & _).
  fold (assessUser answers now) in Hget, Himp, Hstr. fold r in Hget, Himp, Hstr.
  set (sc := category_total assessmentQuestions answers c) in *.
  split; [|split].
  - destruct (Z.lt_ge_cases sc 5); [right; tauto|left; tauto].
  - intros [H1 H2]. apply Hstr in H1. apply Himp in H2. lia.
  - intros H0. rewrite Hget in H0. injection H0 as H0.
    split; [apply Himp; lia|]. intros H1. apply Hstr in H1. lia.
Qed.

(** With no answer at all, [savings] has score 0 and is an improvement
    area. *)
Lemma zero_score_in_improvement_areas_witness :
  let r := assessUser [] 0 in
  get (category_scores r) savings = Some 0 /\
  In savings (improvement_areas r) /\ ~ In savings (strengths r).
Proof.
  split; [reflexivity|].
  apply (zero_score_in_improvement_areas [] 0 savings). reflexivity.
Defined.

End AssessFacts.

(** ** Generating a quiz *)

Module QuizFacts.

Import FinancialQuestionBank QuizEngine.

Section Shuffle.

Context {A : Type}.
Implicit Types (l : list A) (i j k : nat) (x y : A).

Lemma insert_head_Permutation l j x y :
  l !! j = Some y -> y :: <[j:=x]> l ≡ₚ x :: l.
Proof.
  revert j. induction l as [|a l IH]; intros [|j] H; simpl in *; try discriminate.
  - injection H as ->. apply perm_swap.
  - rewrite perm_swap. rewrite (IH j H). apply perm_swap.
Qed.

Lemma exchange_Permutation l i j x y :
  l !! i = Some x -> l !! j = Some y -> <[j:=x]> (<[i:=y]> l) ≡ₚ l.
Proof.
  revert i j. induction l as [|a l IH]; intros [|i] [|j] Hi Hj; simpl in *;
    try discriminate.
  - injection Hi as ->. reflexivity.
  - injection Hi as ->. by apply insert_head_Permutation.
  - injection Hj as ->. by apply insert_head_Permutation.
  - apply perm_skip. by apply IH.
Qed.

Lemma swap_Permutation l i j : swap l i j ≡ₚ l.
Proof.
  unfold swap.
  destruct (l !! i) as [ai|] eqn:Hi; [|reflexivity].
  destruct (l !! j) as [aj|] eqn:Hj; [|reflexivity].
  by apply exchange_Permutation.
Qed.

(** Inside the array, [swap] exchanges the two elements. *)
Lemma swap_lookup l i j x y :
  l !! i = Some x -> l !! j = Some y ->
  swap l i j !! i = Some y /\ swap l i j !! j = Some x.
Proof.
  intros Hi Hj. unfold swap. rewrite Hi, Hj.
  assert (Hli : (i < length l)%nat) by (by apply lookup_lt_Some in Hi).
  assert (Hlj : (j < length l)%nat) by (by apply lookup_lt_Some in Hj).
  split.
  - destruct (decide (i = j)) as [->|Hne].
    + rewrite list_lookup_insert_eq by (by rewrite length_insert). congruence.
    + rewrite list_lookup_insert_ne by done. by rewrite list_lookup_insert_eq.
  - rewrite list_lookup_insert_eq by (by rewrite length_insert). done.
Qed.

Lemma shuffle_loop_Permutation i (rng : Rng) k l : shuffle_loop i rng k l ≡ₚ l.
Proof.
  revert k l. induction i as [|i IH]; intros k l; simpl; [reflexivity|].
  rewrite IH. apply swap_Permutation.
Qed.

Lemma shuffleArray_Permutation (rng : Rng) l : shuffleArray rng l ≡ₚ l.
Proof. apply shuffle_loop_Permutation. Qed.

End Shuffle.

(** C8. [generateQuiz] raises a [TypeError] for every level, count and
    focus categories, also when the count exceeds what the bank holds: its
    first statement calls [getQuestions] on the bank, which has no such
    method, so that no quiz is ever returned. *)
Theorem generateQuiz_raises (rng : Rng) (userLevel : FinancialLiteracyLevel)
    (questionCount : option float) (focusCategories : option (list FinancialCategory)) :
  generateQuiz rng userLevel questionCount focusCategories = Throw TypeError.
Proof. reflexivity. Qed.

End QuizFacts.

(** ** Updating the progress *)

Module ProgressFacts.

Import ProgressTracker.

Local Open Scope Z_scope.

Lemma store_Some (h : Heap) (o : loc) (c : FinancialCategory) (v : float) :
  (o < length (objects h))%nat ->
  exists h', store h o c v = Some h' /\
             arrays h' = arrays h /\
             length (objects h') = length (objects h).
Proof.
  intros Hlt. unfold store.
  destruct (lookup_lt_is_Some_2 (objects h) o Hlt) as [m Hm]. rewrite Hm.
  eexists. split; [reflexivity|]. simpl. split; [done|]. apply length_insert.
Qed.

Lemma mastery_step_Some (m : loc) (h : Heap) (e : FinancialCategory * Z) :
  (m < length (objects h))%nat ->
  exists h', mastery_step m h e = Some h' /\
             arrays h' = arrays h /\
             length (objects h') = length (objects h).
Proof.
  intros Hlt. destruct e as [c s]. unfold mastery_step, load.
  destruct (lookup_lt_is_Some_2 (objects h) m Hlt) as [o Ho]. rewrite Ho. simpl.
  by apply store_Some.
Qed.

(** The loop over the category performance writes to the mastery object
    only. *)
Lemma update_mastery_Some (m : loc) (entries : JsObject Z) (h : Heap) :
  (m < length (objects h))%nat ->
  exists h', update_mastery m h entries = Some h' /\
             arrays h' = arrays h /\
             length (objects h') = length (objects h).
Proof.
  revert h. induction entries as [|e entries IH]; intros h Hlt; simpl.
  - by exists h.
  - destruct (mastery_step_Some m h e Hlt) as (h1 & -> & Ha1 & Hl1). simpl.
    destruct (IH h1) as (h2 & -> & Ha2 & Hl2); [lia|].
    exists h2. split; [done|]. split; congruence.
Qed.

Lemma achievements_or_new_lookup (h : Heap) (p : UserProgress) :
  match achievements p with
  | Some a => (a < length (arrays h))%nat
  | None => True
  end ->
  arrays (fst (achievements_or_new h p)) !! snd (achievements_or_new h p)
  = Some (achievement_list h p).
Proof.
  unfold achievements_or_new, achievement_list, alloc_array.
  destruct (achievements p) as [a|]; simpl.
  - intros Hlt. destruct (lookup_lt_is_Some_2 (arrays h) a Hlt) as [l Hl]. by rewrite Hl.
  - intros _. rewrite lookup_app_r by done. by rewrite Nat.sub_diag.
Qed.

Lemma push_Some (h : Heap) (a : loc) (l : list string) (x : string) :
  arrays h !! a = Some l ->
  exists h', push h a x = Some h' /\ arrays h' !! a = Some (l ++ [x]).
Proof.
  intros Hl. unfold push. rewrite Hl. eexists. split; [reflexivity|]. simpl.
  apply list_lookup_insert_eq. by apply lookup_lt_Some in Hl.
Qed.

(** [checkAchievements] returns. *)
Lemma checkAchievements_Some (h : Heap) (p : UserProgress) (s : QuizSession) :
  match achievements p with
  | Some a => (a < length (arrays h))%nat
  | None => True
  end ->
  exists h' a, checkAchievements h p s = Some (h', a).
Proof.
  intros Hwf. pose proof (achievements_or_new_lookup h p Hwf) as Hl.
  unfold checkAchievements.
  destruct (achievements_or_new h p) as [h0 a]. simpl in Hl.
  assert (Hstep : forall (b : bool) (x : string) (h1 : Heap) (l1 : list string),
            arrays h1 !! a = Some l1 ->
            exists h2 l2,
              (if b then
                 has ← heap_includes h1 a x;
                 if negb has then push h1 a x else Some h1
               else Some h1) = Some h2 /\ arrays h2 !! a = Some l2).
  { intros b x h1 l1 H1. destruct b; [|by exists h1, l1].
    unfold heap_includes. rewrite H1. simpl.
    destruct (negb (includes l1 x)); [|by exists h1, l1].
    destruct (push_Some h1 a l1 x H1) as (h2 & -> & H2). by exists h2, (l1 ++ [x]). }
  destruct (Hstep (score s =? total_questions s) "Perfect Score" h0 _ Hl)
    as (h1 & l1 & -> & H1). simpl.
  destruct (Hstep (total_quizzes_completed p >=? 5) "Quiz Whiz" h1 _ H1)
    as (h2 & l2 & -> & H2). simpl.
  by exists h2, a.
Qed.

(** Without a perfect score and before the fifth quiz, nothing is pushed. *)
Lemma checkAchievements_nothing (h : Heap) (p : UserProgress) (s : QuizSession) :
  score s <> total_questions s ->
  total_quizzes_completed p < 5 ->
  checkAchievements h p s = Some (achievements_or_new h p).
Proof.
  intros Hs Hq. unfold checkAchievements.
  destruct (achievements_or_new h p) as [h0 a].
  destruct (Z.eqb_spec (score s) (total_questions s)) as [|_]; [done|]. simpl.
  destruct (Z.geb_spec (total_quizzes_completed p) 5) as [|_]; [lia|]. done.
Qed.

(** The result of [updateProgress], step by step. *)
Lemma updateProgress_steps (h : Heap) (p : UserProgress) (s : QuizSession)
    (now today : Date) :
  wf_progress h p ->
  exists h1 h2 a,
    update_mastery (category_mastery p) h (category_performance s) = Some h1 /\
    arrays h1 = arrays h /\
    checkAchievements h1
      (spread p (total_quizzes_completed p + 1)
         (total_questions_answered p + total_questions s) (new_accuracy p s) now) s
    = Some (h2, a) /\
    updateProgress h p s now today
    = Some (h2,
            set_learning_streak
              (set_achievements
                 (spread p (total_quizzes_completed p + 1)
                    (total_questions_answered p + total_questions s)
                    (new_accuracy p s) now) a)
              (calculateLearningStreak (last_activity p) today)).
Proof.
  intros [Hm Ha].
  destruct (update_mastery_Some (category_mastery p) (category_performance s) h Hm)
    as (h1 & Hh1 & Harr & _).
  destruct (checkAchievements_Some h1
              (spread p (total_quizzes_completed p + 1)
                 (total_questions_answered p + total_questions s) (new_accuracy p s) now) s)
    as (h2 & a & Hc).
  { simpl. rewrite Harr. exact Ha. }
  exists h1, h2, a. split; [done|]. split; [done|]. split; [done|].
  unfold updateProgress. simpl category_mastery. rewrite Hh1. simpl.
  rewrite Hc. reflexivity.
Qed.

(** C3. [updateProgress] returns, and the accuracy of the progress it
    returns is [(total_questions_answered * overall_accuracy / 100 + score)
    / (total_questions_answered + total_questions) * 100] when the
    denominator is positive and 0 otherwise.  From no quiz, no question and
    accuracy 0, a session with score 8 of 10 gives accuracy 80 and one quiz
    completed, and leaves the achievements as they were: no "Perfect Score"
    is added. *)
Theorem updateProgress_accuracy (h : Heap) (p : UserProgress) (s : QuizSession)
    (now today : Date) :
  wf_progress h p ->
  exists h' p',
    updateProgress h p s now today = Some (h', p') /\
    overall_accuracy p'
    = (if total_questions_answered p + total_questions s >? 0
       then ((Z2float (total_questions_answered p) * overall_accuracy p / 100
              + Z2float (score s))
             / Z2float (total_questions_answered p + total_questions s) * 100)%float
       else 0%float) /\
    total_quizzes_completed p' = total_quizzes_completed p + 1 /\
    total_questions_answered p' = total_questions_answered p + total_questions s /\
    (total_quizzes_completed p = 0 ->
     total_questions_answered p = 0 ->
     overall_accuracy p = 0%float ->
     score s = 8 ->
     total_questions s = 10 ->
     overall_accuracy p' = 80%float /\
     total_quizzes_completed p' = 1 /\
     achievement_list h' p' = achievement_list h p /\
     (In "Perfect Score" (achievement_list h' p') -> In "Perfect Score" (achievement_list h p))).
Proof.
  intros Hwf.
  destruct (updateProgress_steps h p s now today Hwf) as (h1 & h2 & a & Hm & Harr & Hc & Hu).
  eexists _, _. split; [exact Hu|]. simpl.
  split; [reflexivity|]. split; [reflexivity|]. split; [reflexivity|].
  intros Hq Ha Hacc Hs Ht.
  assert (E : achievement_list h2
                (set_learning_streak
                   (set_achievements
                      (spread p (total_quizzes_completed p + 1)
                         (total_questions_answered p + total_questions s)
                         (new_accuracy p s) now) a)
                   (calculateLearningStreak (last_activity p) today))
              = achievement_list h p).
  { rewrite checkAchievements_nothing in Hc by (simpl; lia).
    injection Hc as Hc. destruct Hwf as [_ Hwa].
    unfold achievement_list at 1. simpl.
    assert (Hl : arrays h2 !! a = Some (achievement_list h p)).
    { unfold achievements_or_new, alloc_array, achievement_list in *. simpl in Hc.
      destruct (achievements p) as [a0|].
      - injection Hc as <- <-. rewrite Harr.
        destruct (lookup_lt_is_Some_2 (arrays h) a0 Hwa) as [l Hl]. by rewrite Hl.
      - injection Hc as <- <-. simpl.
        rewrite lookup_app_r by done. by rewrite Nat.sub_diag. }
    by rewrite Hl. }
  split; [|split; [lia|split; [exact E|by rewrite E]]].
  unfold new_accuracy. rewrite Ha, Hacc, Hs, Ht. vm_compute. reflexivity.
Qed.

(** Eight of ten, from an empty progress record. *)
Lemma updateProgress_accuracy_witness :
  exists h' p',
    updateProgress Fixtures.heap0 Fixtures.progress0 Fixtures.session_8_of_10 100 101
    = Some (h', p') /\
    overall_accuracy p' = 80%float /\
    total_quizzes_completed p' = 1 /\
    achievement_list h' p' = [].
Proof.
  destruct (updateProgress_accuracy Fixtures.heap0 Fixtures.progress0
              Fixtures.session_8_of_10 100 101)
    as (h' & p' & Hu & _ & _ & _ & Hscen).
  - split; simpl; lia.
  - exists h', p'. split; [exact Hu|].
    destruct Hscen as (Hacc & Hq & Hl & _); try reflexivity.
    split; [exact Hacc|]. split; [exact Hq|]. exact Hl.
Defined.

(** The record returned holds the references of the record given: the
    mastery object and the achievement array are shared, not copied. *)
Lemma updateProgress_shares (h : Heap) (p : UserProgress) (s : QuizSession)
    (now today : Date) (h' : Heap) (p' : UserProgress) :
  updateProgress h p s now today = Some (h', p') ->
  category_mastery p' = category_mastery p /\
  (forall a, achievements p = Some a -> achievements p' = Some a).
Proof.
  unfold updateProgress. simpl category_mastery.
  destruct (update_mastery _ h _) as [h1|]; simpl; [|discriminate].
  destruct (checkAchievements h1 _ s) as [[h2 a]|] eqn:Hc; simpl; [|discriminate].
  intros [= <- <-]. simpl. split; [done|].
  intros a0 Ha0. unfold checkAchievements, achievements_or_new in Hc.
  simpl in Hc. rewrite Ha0 in Hc.
  destruct (if score s =? total_questions s then _ else _) as [h3|]; simpl in Hc;
    [|discriminate].
  destruct (if _ >=? 5 then _ else _) as [h4|]; simpl in Hc; [|discriminate].
  congruence.
Qed.

(** C2. [updateProgress] changes the progress it was given: after a
    perfect one-question session on savings, the achievement array of the
    original record holds "Perfect Score" and its mastery object has a
    [savings] property, although both were empty before the call. *)
Theorem updateProgress_mutates_original :
  exists h' p',
    updateProgress Fixtures.heap0 Fixtures.progress0 Fixtures.perfect_session 100 101
    = Some (h', p') /\
    achievement_list Fixtures.heap0 Fixtures.progress0 = [] /\
    achievement_list h' Fixtures.progress0 = ["Perfect Score"] /\
    objects Fixtures.heap0 !! category_mastery Fixtures.progress0 = Some [] /\
    objects h' !! category_mastery Fixtures.progress0 = Some [(savings, 0.5%float)].
Proof.
  eexists _, _. split; [vm_compute; reflexivity|].
  vm_compute. done.
Qed.

End ProgressFacts.

(** ** More on scoring *)

Module ScoreBounds.

Import QuizEngine.

Local Open Scope Z_scope.

Lemma filter_length_le {A : Type} (p : A -> bool) (l : list A) :
  (length (List.filter p l) <= length l)%nat.
Proof.
  induction l as [|x l IH]; simpl; [lia|]. destruct (p x); simpl; lia.
Qed.

Lemma filter_length_all {A : Type} (p : A -> bool) (l : list A) :
  length (List.filter p l) = length l <-> (forall x, In x l -> p x = true).
Proof.
  induction l as [|x l IH]; simpl.
  - split; [intros _ y []|done].
  - pose proof (filter_length_le p l) as Hle.
    destruct (p x) eqn:E; simpl.
    + split.
      * intros H y [<-|Hy]; [done|]. apply IH; [lia|done].
      * intros H. f_equal. apply IH. auto.
    + split; [lia|]. intros H. rewrite H in E by auto. discriminate.
Qed.

Lemma length_combine_seq {A : Type} (l : list A) (start : nat) :
  length (combine (seq start (length l)) l) = length l.
Proof. rewrite length_combine, length_seq. lia. Qed.

Lemma sumZ_set (o : JsObject Z) (k : FinancialCategory) (v : Z) :
  sumZ (map snd (set o k v)) = sumZ (map snd o) - or_zero (get o k) + v.
Proof.
  induction o as [|[k' v'] o IH]; simpl.
  - unfold sumZ. simpl. lia.
  - destruct (category_eqb k' k); simpl.
    + unfold sumZ. simpl. lia.
    + unfold sumZ in *. simpl. lia.
Qed.

Lemma sumZ_bumps {A : Type} (key : A -> FinancialCategory) (w : A -> Z)
    (l : list A) (o : JsObject Z) :
  sumZ (map snd
          (fold_left (fun o x => set o (key x) (or_zero (get o (key x)) + w x)) l o))
  = sumZ (map snd o) + sumZ (map w l).
Proof.
  revert o. induction l as [|x l IH]; intros o; simpl.
  - unfold sumZ. simpl. lia.
  - rewrite IH, sumZ_set. unfold sumZ. simpl. lia.
Qed.

(** X1. The score that [scoreQuiz] sets is never negative and never more
    than the number of questions, nor than the number of answers given. *)
Theorem scoreQuiz_score_bounds (s : QuizSession) (now : Date) :
  0 <= score (scoreQuiz s now) /\
  score (scoreQuiz s now) <= Z.of_nat (length (questions s)) /\
  score (scoreQuiz s now) <= Z.of_nat (length (user_answers s)).
Proof.
  rewrite ScoreFacts.scoreQuiz_score. split; [lia|]. split.
  - unfold correct_entries.
    pose proof (filter_length_le
      (fun iq : nat * QuizQuestion => answer_is (user_answers s) (fst iq) (correct (snd iq)))
      (combine (seq 0 (length (questions s))) (questions s))) as H.
    rewrite length_combine_seq in H. lia.
  - assert (H : (length (map fst (correct_entries (questions s) (user_answers s)))
                 <= length (seq 0 (length (user_answers s))))%nat).
    { apply List.NoDup_incl_length; [apply correct_entries_NoDup|].
      intros i Hi. apply in_map_iff in Hi as ([i' q] & <- & Hin). simpl.
      apply correct_entries_spec in Hin as [_ Ha].
      apply lookup_lt_Some in Ha. apply in_seq. lia. }
    rewrite length_map, length_seq in H. lia.
Qed.

(** X2. The counts that [scoreQuiz] stores in [category_performance] add up
    to the score. *)
Theorem scoreQuiz_performance_sums_to_score (s : QuizSession) (now : Date) :
  sumZ (map snd (category_performance (scoreQuiz s now))) = score (scoreQuiz s now).
Proof.
  rewrite ScoreFacts.scoreQuiz_category_performance, ScoreFacts.scoreQuiz_score.
  rewrite (sumZ_bumps (fun iq : nat * QuizQuestion => category (snd iq)) (fun _ => 1)).
  rewrite ScoreFacts.sumZ_ones. unfold sumZ. simpl. lia.
Qed.

Lemma scoreQuiz_full_iff (s : QuizSession) (now : Date) :
  score (scoreQuiz s now) = Z.of_nat (length (questions s))
  <-> (forall i q, questions s !! i = Some q -> user_answers s !! i = Some (correct q)).
Proof.
  rewrite ScoreFacts.scoreQuiz_score.
  assert (E : length (correct_entries (questions s) (user_answers s)) = length (questions s)
              <-> (forall iq, In iq (combine (seq 0 (length (questions s))) (questions s))
                              -> answer_is (user_answers s) (fst iq) (correct (snd iq)) = true)).
  { unfold correct_entries. rewrite <- filter_length_all.
    by rewrite length_combine_seq. }
  split.
  - intros H i q Hq. apply answer_is_true.
    apply (proj1 E ltac:(lia) (i, q)). apply In_combine_seq.
    rewrite Nat.sub_0_r. split; [lia|done].
  - intros H. f_equal. apply E. intros [i q] Hin. simpl. apply answer_is_true.
    apply H. apply In_combine_seq in Hin as [_ Hin]. by rewrite Nat.sub_0_r in Hin.
Qed.

(** X3. The score is the number of questions exactly when every question
    has its correct index at its place in [user_answers]. *)
Theorem scoreQuiz_full_score (s : QuizSession) (now : Date) :
  score (scoreQuiz s now) = Z.of_nat (length (questions s))
  <-> (forall i q, questions s !! i = Some q -> user_answers s !! i = Some (correct q)).
Proof. apply scoreQuiz_full_iff. Qed.

(** X4. A session without answers scores 0 and has an empty
    [category_performance], whatever its questions. *)
Theorem scoreQuiz_no_answers (s : QuizSession) (now : Date) :
  user_answers s = [] ->
  score (scoreQuiz s now) = 0 /\ category_performance (scoreQuiz s now) = [].
Proof.
  intros Ha.
  assert (E : correct_entries (questions s) (user_answers s) = []).
  { destruct (correct_entries _ _) as [|[i q] l] eqn:E; [done|].
    assert (Hin : In (i, q) (correct_entries (questions s) (user_answers s)))
      by (rewrite E; by left).
    apply correct_entries_spec in Hin as [_ Hin]. rewrite Ha in Hin. discriminate. }
  rewrite ScoreFacts.scoreQuiz_score, ScoreFacts.scoreQuiz_category_performance, E. done.
Qed.

Lemma scoreQuiz_no_answers_witness :
  score (scoreQuiz Fixtures.unanswered_session 7) = 0 /\
  category_performance (scoreQuiz Fixtures.unanswered_session 7) = [].
Proof. apply (scoreQuiz_no_answers Fixtures.unanswered_session 7). reflexivity. Defined.

End ScoreBounds.

(** ** More on the shuffle and the quiz *)

Module ShuffleFacts.

Import FinancialQuestionBank QuizEngine.

Section Reach.

Context {A : Type}.
Implicit Types (l pre suf : list A) (i j k : nat) (rng : Rng).

Lemma swap_drop l i j : (j <= i)%nat -> drop (S i) (swap l i j) = drop (S i) l.
Proof.
  intros Hle. unfold swap.
  destruct (l !! i) as [ai|]; [|done]. destruct (l !! j) as [aj|]; [|done].
  rewrite !drop_insert_lt by lia. done.
Qed.

(** The loop started at draw [k] reads the draws from [k] on only. *)
Lemma shuffle_loop_ext i rng rng' k l :
  (forall n, (k <= n)%nat -> rng n = rng' n) ->
  shuffle_loop i rng k l = shuffle_loop i rng' k l.
Proof.
  revert k l. induction i as [|i IH]; intros k l H; simpl; [done|].
  rewrite (H k) by lia. apply IH. intros n Hn. apply H. lia.
Qed.

Lemma shuffle_loop_step i rng k l :
  shuffle_loop (S i) rng k l
  = shuffle_loop i rng (S k) (swap l (S i) (rng k mod (S i + 1))).
Proof. reflexivity. Qed.

(** Whatever order is wanted for the first [i + 1] elements, some draws
    make the loop from [i] produce it, and the rest of the array stays. *)
Lemma shuffle_loop_reaches i :
  forall pre suf target k,
    length pre = S i -> pre ≡ₚ target ->
    exists rng, shuffle_loop i rng k (pre ++ suf) = target ++ suf.
Proof.
  induction i as [|i IH]; intros pre suf target k Hlen Hperm.
  - destruct pre as [|a [|b pre]]; simpl in Hlen; try lia.
    apply Permutation_length_1_inv in Hperm as ->.
    exists (fun _ => 0%nat). reflexivity.
  - assert (Htl : target <> []).
    { intros ->. apply Permutation_length in Hperm. simpl in Hperm. lia. }
    destruct (exists_last Htl) as (tq & x & ->).
    assert (Hx : x ∈ pre).
    { apply list_elem_of_In. apply (Permutation_in x (Permutation_sym Hperm)).
      apply in_or_app. right. by left. }
    apply list_elem_of_lookup_1 in Hx as [j Hj].
    assert (Hjlt : (j < length pre)%nat) by (by apply lookup_lt_Some in Hj).
    destruct (lookup_lt_is_Some_2 pre (S i)) as [y Hy]; [lia|].
    assert (Haj : (pre ++ suf) !! j = Some x) by (by rewrite lookup_app_l).
    assert (Hai : (pre ++ suf) !! S i = Some y) by (rewrite lookup_app_l; [done|lia]).
    destruct (QuizFacts.swap_lookup (pre ++ suf) (S i) j y x Hai Haj) as [Hsi _].
    pose proof (QuizFacts.swap_Permutation (pre ++ suf) (S i) j) as Hsp.
    pose proof (swap_drop (pre ++ suf) (S i) j ltac:(lia)) as Hsd.
    rewrite (drop_app_length' pre suf) in Hsd by lia.
    pose proof (take_drop_middle _ _ _ Hsi) as Hmid. rewrite Hsd in Hmid.
    set (pre' := take (S i) (swap (pre ++ suf) (S i) j)) in *.
    assert (Hlen' : length pre' = S i).
    { unfold pre'. apply length_take_le.
      rewrite (Permutation_length Hsp), length_app. lia. }
    assert (Hperm' : pre' ≡ₚ tq).
    { apply (Permutation_app_inv_r [x]). rewrite <- Hperm.
      apply (Permutation_app_inv_r suf). rewrite <- app_assoc. simpl.
      by rewrite Hmid. }
    destruct (IH pre' (x :: suf) tq (S k) Hlen' Hperm') as [rng' Hrng'].
    exists (fun n => if Nat.eqb n k then j else rng' n).
    rewrite shuffle_loop_step. cbv beta. rewrite Nat.eqb_refl.
    rewrite (Nat.mod_small j) by lia.
    rewrite (shuffle_loop_ext i _ rng' (S k)).
    + rewrite <- Hmid, Hrng'. by rewrite <- app_assoc.
    + intros n Hn. destruct (Nat.eqb_spec n k); [lia|done].
Qed.

End Reach.

(** X5. [shuffleArray] only reorders: for every sequence of draws the
    result is a permutation of the array, of the same length. *)
Theorem shuffleArray_permutes {A : Type} (rng : Rng) (array : list A) :
  shuffleArray rng array ≡ₚ array /\
  length (shuffleArray rng array) = length array.
Proof.
  pose proof (QuizFacts.shuffleArray_Permutation rng array) as H.
  split; [exact H|]. by apply Permutation_length.
Qed.

(** X6. [shuffleArray] can produce every order: each permutation of the
    array is the result for some sequence of draws. *)
Theorem shuffleArray_reaches_every_order {A : Type} (array target : list A) :
  array ≡ₚ target -> exists rng, shuffleArray rng array = target.
Proof.
  intros Hperm. unfold shuffleArray.
  destruct array as [|a array].
  - apply Permutation_nil in Hperm as ->. exists (fun _ => 0%nat). reflexivity.
  - destruct (shuffle_loop_reaches (length array) (a :: array) [] target 0%nat)
      as [rng Hrng]; [done|done|].
    exists rng. rewrite !app_nil_r in Hrng.
    replace (length (a :: array) - 1)%nat with (length array) by (simpl; lia).
    exact Hrng.
Qed.

Lemma shuffleArray_reaches_every_order_witness :
  exists rng, shuffleArray rng [1; 2; 3]%Z = [3; 1; 2]%Z.
Proof.
  apply (shuffleArray_reaches_every_order [1; 2; 3]%Z [3; 1; 2]%Z).
  change [3; 1; 2]%Z with ([3]%Z ++ [1; 2]%Z).
  change [1; 2; 3]%Z with ([1; 2]%Z ++ [3]%Z).
  apply Permutation_app_comm.
Defined.

End ShuffleFacts.

(** ** More on the assessment *)

Module PretestFacts.

Import AssessmentEngine.

Local Open Scope Z_scope.

(** Answers past the end of the pretest are never read. *)
Lemma correct_entries_take (qs : list QuizQuestion) (answers : list Z) :
  correct_entries qs (take (length qs) answers) = correct_entries qs answers.
Proof.
  unfold correct_entries. apply filter_ext_in. intros [i q] Hin. simpl.
  apply In_combine_seq in Hin as [_ Hin]. apply lookup_lt_Some in Hin.
  unfold answer_is. rewrite lookup_take_lt by lia. done.
Qed.

(** The result on the pretest, by which of its five questions were
    answered correctly. *)
Lemma assessUser_by_cases (answers : list Z) (now : Date) :
  let r := assessUser answers now in
  let b0 := answer_is answers 0 1 in
  let b1 := answer_is answers 1 2 in
  let b2 := answer_is answers 2 0 in
  let b3 := answer_is answers 3 0 in
  let b4 := answer_is answers 4 2 in
  strengths r = (if b2 && b4 then [investing] else []) /\
  primary_level r
  = (if b4 && negb (b2 && b3) then advanced
     else if (b2 && b3) || ((b2 || b3) && negb (b0 && b1)) then intermediate
     else novice) /\
  length (improvement_areas r) = (if b2 && b4 then 11%nat else 12%nat) /\
  length (recommended_topics r) = 2%nat.
Proof.
  unfold assessUser, assessWith, accumulate, assessmentQuestions.
  cbn [forEach]. unfold assess_step. cbn [correct level category difficulty_weight].
  destruct (answer_is answers 0 1), (answer_is answers 1 2), (answer_is answers 2 0),
    (answer_is answers 3 0), (answer_is answers 4 2);
    vm_compute; done.
Qed.

(** X8. [assessUser] reads as many answers as the pretest has questions:
    what follows in [answers] changes nothing in the result. *)
Theorem assessUser_ignores_extra_answers (answers : list Z) (now : Date) :
  assessUser answers now = assessUser (take 5 answers) now.
Proof.
  unfold assessUser, assessWith.
  rewrite !AssessFacts.accumulate_fold.
  change 5%nat with (length assessmentQuestions).
  by rewrite correct_entries_take.
Qed.

(** X9. On the pretest, investing is the only category that can be a
    strength, and it is one exactly when both investing questions, the third
    and the fifth, are answered correctly. *)
Theorem assessUser_only_strength (answers : list Z) (now : Date) (c : FinancialCategory) :
  In c (strengths (assessUser answers now))
  <-> c = investing /\ answers !! 2%nat = Some 0 /\ answers !! 4%nat = Some 2.
Proof.
  destruct (assessUser_by_cases answers now) as (Hs & _). cbv zeta in Hs. rewrite Hs.
  rewrite <- !answer_is_true.
  destruct (answer_is answers 2 0), (answer_is answers 4 2); simpl; intuition congruence.
Qed.

(** X10. On the pretest, the level is advanced exactly when the advanced
    question is answered correctly and the two intermediate questions are
    not both: answering all five correctly does not give advanced. *)
Theorem assessUser_advanced_iff (answers : list Z) (now : Date) :
  primary_level (assessUser answers now) = advanced
  <-> answers !! 4%nat = Some 2
      /\ ~ (answers !! 2%nat = Some 0 /\ answers !! 3%nat = Some 0).
Proof.
  destruct (assessUser_by_cases answers now) as (_ & Hp & _). cbv zeta in Hp. rewrite Hp.
  rewrite <- !answer_is_true.
  destruct (answer_is answers 0 1), (answer_is answers 1 2), (answer_is answers 2 0),
    (answer_is answers 3 0), (answer_is answers 4 2); simpl; intuition congruence.
Qed.

(** X11. On the pretest, at least eleven of the twelve categories are
    improvement areas whatever the answers, so that [recommended_topics]
    always has its two entries. *)
Theorem assessUser_always_two_topics (answers : list Z) (now : Date) :
  (11 <= length (improvement_areas (assessUser answers now)))%nat /\
  length (recommended_topics (assessUser answers now)) = 2%nat.
Proof.
  destruct (assessUser_by_cases answers now) as (_ & _ & Hi & Hr).
  cbv zeta in Hi, Hr. rewrite Hi, Hr.
  split; [|done]. destruct (_ && _); lia.
Qed.

End PretestFacts.

(** ** More on the progress tracker *)

Module TrackerFacts.

Import ProgressTracker.

Local Open Scope Z_scope.

(** *** The achievements, as a list *)


Lemma new_achievements_perfect (l : list string) (s : QuizSession) (quizzes : Z) :
  score s = total_questions s -> In "Perfect Score" (new_achievements l s quizzes).
Proof.
  intros E. unfold new_achievements. rewrite (proj2 (Z.eqb_eq _ _) E). simpl.
  assert (H1 : In "Perfect Score"
                 (if negb (includes l "Perfect Score") then l ++ ["Perfect Score"] else l)).
  { destruct (includes l "Perfect Score") eqn:Hi; simpl.
    - by apply includes_In.
    - apply in_or_app. right. by left. }
  destruct (_ && _); [apply in_or_app; by left|done].
Qed.

Lemma new_achievements_whiz (l : list string) (s : QuizSession) (quizzes : Z) :
  5 <= quizzes -> In "Quiz Whiz" (new_achievements l s quizzes).
Proof.
  intros Hq. unfold new_achievements.
  destruct (Z.geb_spec quizzes 5) as [_|]; [|lia]. simpl.
  destruct (includes _ "Quiz Whiz") eqn:Hi; simpl.
  - by apply includes_In.
  - apply in_or_app. right. by left.
Qed.



(** *** [checkAchievements] on the heap *)

(** One of the two guarded pushes. *)
Lemma guarded_push (b : bool) (x : string) (h1 : Heap) (a : loc) (l1 : list string) :
  arrays h1 !! a = Some l1 ->
  exists h2,
    (if b then
       has ← heap_includes h1 a x;
       if negb has then push h1 a x else Some h1
     else Some h1) = Some h2 /\
    objects h2 = objects h1 /\
    arrays h2 !! a = Some (if b && negb (includes l1 x) then l1 ++ [x] else l1) /\
    length (arrays h2) = length (arrays h1) /\
    (forall a', a' <> a -> arrays h2 !! a' = arrays h1 !! a').
Proof.
  intros H1. destruct b; simpl; [|by exists h1].
  unfold heap_includes. rewrite H1. simpl.
  destruct (includes l1 x); simpl; [by exists h1|].
  unfold push. rewrite H1. eexists. split; [reflexivity|]. simpl.
  split; [done|]. split; [|split].
  - apply list_lookup_insert_eq. by apply lookup_lt_Some in H1.
  - apply length_insert.
  - intros a' Hne. by apply list_lookup_insert_ne.
Qed.

Lemma checkAchievements_spec (h : Heap) (p : UserProgress) (s : QuizSession)
    (l : list string) :
  arrays (fst (achievements_or_new h p)) !! snd (achievements_or_new h p) = Some l ->
  exists h',
    checkAchievements h p s = Some (h', snd (achievements_or_new h p)) /\
    objects h' = objects h /\
    arrays h' !! snd (achievements_or_new h p)
    = Some (new_achievements l s (total_quizzes_completed p)) /\
    length (arrays h') = length (arrays (fst (achievements_or_new h p))) /\
    (forall a', a' <> snd (achievements_or_new h p) ->
                arrays h' !! a' = arrays (fst (achievements_or_new h p)) !! a').
Proof.
  intros Hl. unfold checkAchievements.
  assert (Ho : objects (fst (achievements_or_new h p)) = objects h).
  { unfold achievements_or_new, alloc_array. by destruct (achievements p). }
  destruct (achievements_or_new h p) as [h0 a]. simpl in *.
  destruct (guarded_push (score s =? total_questions s) "Perfect Score" h0 a l Hl)
    as (h1 & -> & Ho1 & Hl1 & Hn1 & Hf1). simpl.
  destruct (guarded_push (total_quizzes_completed p >=? 5) "Quiz Whiz" h1 a _ Hl1)
    as (h2 & -> & Ho2 & Hl2 & Hn2 & Hf2). simpl.
  exists h2. split; [done|]. split; [congruence|]. split; [exact Hl2|].
  split; [congruence|]. intros a' Hne. rewrite Hf2, Hf1 by done. done.
Qed.

(** *** The mastery loop on the heap *)

Lemma store_spec (h : Heap) (m : loc) (o : JsObject float) (c : FinancialCategory)
    (v : float) :
  objects h !! m = Some o ->
  exists h',
    store h m c v = Some h' /\
    arrays h' = arrays h /\
    length (objects h') = length (objects h) /\
    objects h' !! m = Some (set o c v) /\
    (forall m', m' <> m -> objects h' !! m' = objects h !! m').
Proof.
  intros Ho. unfold store. rewrite Ho. eexists. split; [reflexivity|]. simpl.
  split; [done|]. split; [apply length_insert|]. split.
  - apply list_lookup_insert_eq. by apply lookup_lt_Some in Ho.
  - intros m' Hne. by apply list_lookup_insert_ne.
Qed.

Lemma update_mastery_spec (m : loc) (entries : JsObject Z) :
  forall (h : Heap) (o : JsObject float),
    objects h !! m = Some o ->
    List.NoDup (map fst entries) ->
    exists h' o',
      update_mastery m h entries = Some h' /\
      arrays h' = arrays h /\
      length (objects h') = length (objects h) /\
      (forall m', m' <> m -> objects h' !! m' = objects h !! m') /\
      objects h' !! m = Some o' /\
      (forall c,
         get o' c = match get entries c with
                    | Some n => Some ((or_zero_f (get o c) + Z2float n) / 2)%float
                    | None => get o c
                    end).
Proof.
  induction entries as [|[c0 n0] entries IH]; intros h o Ho Hnd; simpl.
  - exists h, o. done.
  - apply List.NoDup_cons_iff in Hnd as [Hc0 Hnd]. simpl in Hc0.
    unfold load. rewrite Ho. simpl.
    destruct (store_spec h m o c0 ((or_zero_f (get o c0) + Z2float n0) / 2)%float Ho)
      as (h1 & -> & Ha1 & Hn1 & Ho1 & Hf1). simpl.
    destruct (IH h1 _ Ho1 Hnd) as (h2 & o2 & -> & Ha2 & Hn2 & Hf2 & Ho2 & Hg2).
    exists h2, o2. split; [done|]. split; [congruence|]. split; [congruence|].
    split; [intros m' Hne; rewrite Hf2, Hf1 by done; done|]. split; [done|].
    intros c. rewrite Hg2. destruct (category_eqb c0 c) eqn:E.
    + apply category_eqb_true in E. subst c.
      assert (Hnone : get entries c0 = None).
      { destruct (get entries c0) eqn:G; [|done].
        exfalso. apply Hc0. apply get_In_keys. congruence. }
      rewrite Hnone. apply get_set_eq.
    + apply category_eqb_false in E. rewrite get_set_ne by done. done.
Qed.

Lemma update_mastery_frame (m : loc) (entries : JsObject Z) :
  forall h : Heap,
    (m < length (objects h))%nat ->
    exists h',
      update_mastery m h entries = Some h' /\
      arrays h' = arrays h /\
      length (objects h') = length (objects h) /\
      (forall m', m' <> m -> objects h' !! m' = objects h !! m').
Proof.
  induction entries as [|[c0 n0] entries IH]; intros h Hm; simpl.
  - by exists h.
  - destruct (lookup_lt_is_Some_2 (objects h) m Hm) as [o Ho].
    unfold load. rewrite Ho. simpl.
    destruct (store_spec h m o c0 ((or_zero_f (get o c0) + Z2float n0) / 2)%float Ho)
      as (h1 & -> & Ha1 & Hn1 & _ & Hf1). simpl.
    destruct (IH h1) as (h2 & -> & Ha2 & Hn2 & Hf2); [lia|].
    exists h2. split; [done|]. split; [congruence|]. split; [congruence|].
    intros m' Hne. rewrite Hf2, Hf1 by done. done.
Qed.

(** *** [updateProgress] *)

(** The array the achievements are in after the call. *)
Lemma achievements_or_new_snd (h : Heap) (p : UserProgress) :
  snd (achievements_or_new h p)
  = match achievements p with Some a => a | None => length (arrays h) end.
Proof. unfold achievements_or_new, alloc_array. by destruct (achievements p). Qed.

(** The call, once the mastery loop has run. *)
Lemma updateProgress_after_mastery (h h1 : Heap) (p : UserProgress) (s : QuizSession)
    (now today : Date) :
  wf_progress h p ->
  update_mastery (category_mastery p) h (category_performance s) = Some h1 ->
  arrays h1 = arrays h ->
  exists h' p' a,
    updateProgress h p s now today = Some (h', p') /\
    a = match achievements p with Some a => a | None => length (arrays h) end /\
    p' = set_learning_streak
           (set_achievements
              (spread p (total_quizzes_completed p + 1)
                 (total_questions_answered p + total_questions s)
                 (new_accuracy p s) now) a)
           (calculateLearningStreak (last_activity p) today) /\
    objects h' = objects h1 /\
    arrays h' !! a
    = Some (new_achievements (achievement_list h p) s (total_quizzes_completed p + 1)) /\
    (length (arrays h) <= length (arrays h'))%nat /\
    (forall a', a' <> a -> (a' < length (arrays h))%nat ->
                arrays h' !! a' = arrays h !! a').
Proof.
  intros [Hm Ha] Hh1 Harr.
  set (u := spread p (total_quizzes_completed p + 1)
              (total_questions_answered p + total_questions s) (new_accuracy p s) now).
  assert (Hwa : match achievements u with
                | Some a => (a < length (arrays h1))%nat
                | None => True
                end) by (simpl; by rewrite Harr).
  pose proof (ProgressFacts.achievements_or_new_lookup h1 u Hwa) as Hl.
  assert (El : achievement_list h1 u = achievement_list h p).
  { unfold achievement_list. simpl. by rewrite Harr. }
  rewrite El in Hl.
  destruct (checkAchievements_spec h1 u s _ Hl) as (h' & Hc & Ho & Hl' & Hn & Hf).
  rewrite achievements_or_new_snd in Hc, Hl', Hf. simpl achievements in Hc, Hl', Hf.
  rewrite Harr in Hc, Hl', Hf.
  eexists h', _, _. split.
  { unfold updateProgress. fold u. simpl category_mastery. rewrite Hh1. simpl.
    rewrite Hc. simpl. reflexivity. }
  split; [reflexivity|]. split; [reflexivity|]. split; [done|]. split; [exact Hl'|].
  assert (Hn0 : (length (arrays h) <= length (arrays (fst (achievements_or_new h1 u))))%nat).
  { unfold achievements_or_new, alloc_array. simpl achievements.
    destruct (achievements p); simpl; rewrite Harr; [lia|]. rewrite length_app. lia. }
  split; [lia|].
  intros a' Hne Hlt. rewrite Hf by done.
  unfold achievements_or_new, alloc_array. simpl achievements.
  destruct (achievements p); simpl; rewrite Harr; [done|]. by rewrite lookup_app_l.
Qed.

(** The call, with what it does to the heap. *)
Lemma updateProgress_heap (h : Heap) (p : UserProgress) (s : QuizSession)
    (now today : Date) :
  wf_progress h p ->
  exists h' p' a,
    updateProgress h p s now today = Some (h', p') /\
    a = match achievements p with Some a => a | None => length (arrays h) end /\
    p' = set_learning_streak
           (set_achievements
              (spread p (total_quizzes_completed p + 1)
                 (total_questions_answered p + total_questions s)
                 (new_accuracy p s) now) a)
           (calculateLearningStreak (last_activity p) today) /\
    arrays h' !! a
    = Some (new_achievements (achievement_list h p) s (total_quizzes_completed p + 1)) /\
    length (objects h') = length (objects h) /\
    (length (arrays h) <= length (arrays h'))%nat /\
    (forall m', m' <> category_mastery p -> objects h' !! m' = objects h !! m') /\
    (forall a', a' <> a -> (a' < length (arrays h))%nat ->
                arrays h' !! a' = arrays h !! a').
Proof.
  intros Hwf.
  destruct (update_mastery_frame (category_mastery p) (category_performance s) h
              (proj1 Hwf)) as (h1 & Hh1 & Harr & Hn1 & Hf1).
  destruct (updateProgress_after_mastery h h1 p s now today Hwf Hh1 Harr)
    as (h' & p' & a & Hu & Ea & Ep & Ho & Hl & Hn & Hf).
  exists h', p', a. rewrite Ho. done.
Qed.

Lemma achievement_list_after (h' : Heap) (p' : UserProgress) (a : loc) (l : list string) :
  achievements p' = Some a -> arrays h' !! a = Some l -> achievement_list h' p' = l.
Proof. intros Ha Hl. unfold achievement_list. by rewrite Ha, Hl. Qed.

Ltac wf_fixture := split; simpl; lia.



(** X13. A session whose score equals its number of questions leaves
    "Perfect Score" among the achievements. *)
Theorem updateProgress_perfect_score (h : Heap) (p : UserProgress)
    (s : QuizSession) (now today : Date) :
  wf_progress h p ->
  score s = total_questions s ->
  exists h' p',
    updateProgress h p s now today = Some (h', p') /\
    In "Perfect Score" (achievement_list h' p').
Proof.
  intros Hwf Hs.
  destruct (updateProgress_heap h p s now today Hwf)
    as (h' & p' & a & Hu & _ & Ep & Hl & _).
  exists h', p'. split; [done|].
  rewrite (achievement_list_after h' p' a _ ltac:(by subst p') Hl).
  by apply new_achievements_perfect.
Qed.

Lemma updateProgress_perfect_score_witness :
  exists h' p',
    updateProgress Fixtures.heap0 Fixtures.progress0 (Fixtures.session_of 10 10 []) 100 101
    = Some (h', p') /\
    In "Perfect Score" (achievement_list h' p').
Proof.
  apply (updateProgress_perfect_score Fixtures.heap0 Fixtures.progress0
           (Fixtures.session_of 10 10 []) 100 101).
  - wf_fixture.
  - reflexivity.
Defined.

(** X14. From the fifth quiz on, that is when at least four were completed
    before the call, "Quiz Whiz" is among the achievements after
    [updateProgress], whatever the score. *)
Theorem updateProgress_quiz_whiz (h : Heap) (p : UserProgress)
    (s : QuizSession) (now today : Date) :
  wf_progress h p ->
  4 <= total_quizzes_completed p ->
  exists h' p',
    updateProgress h p s now today = Some (h', p') /\
    total_quizzes_completed p' = total_quizzes_completed p + 1 /\
    In "Quiz Whiz" (achievement_list h' p').
Proof.
  intros Hwf Hq.
  destruct (updateProgress_heap h p s now today Hwf)
    as (h' & p' & a & Hu & _ & Ep & Hl & _).
  exists h', p'. split; [done|]. split; [by subst p'|].
  rewrite (achievement_list_after h' p' a _ ltac:(by subst p') Hl).
  apply new_achievements_whiz. lia.
Qed.

Lemma updateProgress_quiz_whiz_witness :
  exists h' p',
    updateProgress Fixtures.heap0 Fixtures.progress4 Fixtures.session_8_of_10 100 101
    = Some (h', p') /\
    total_quizzes_completed p' = 5 /\
    In "Quiz Whiz" (achievement_list h' p').
Proof.
  apply (updateProgress_quiz_whiz Fixtures.heap0 Fixtures.progress4
           Fixtures.session_8_of_10 100 101).
  - wf_fixture.
  - simpl. lia.
Defined.



(** X16. [updateProgress] returns a record that has an achievements
    array, also when the record it is given has none ([achievements] is
    [undefined]): the array is then a new one, and holds what the call
    awards and nothing else.  The record returned has its mastery object
    too, and [updateProgress] returns again on it, with two quizzes
    counted. *)
Theorem updateProgress_keeps_wf (h : Heap) (p : UserProgress)
    (s : QuizSession) (now today : Date) :
  wf_progress h p ->
  exists h' p' a l o,
    updateProgress h p s now today = Some (h', p') /\
    achievements p' = Some a /\
    arrays h' !! a = Some l /\
    mastery_of h' p' = Some o /\
    (achievements p = None ->
     a = length (arrays h) /\
     l = new_achievements [] s (total_quizzes_completed p + 1)) /\
    (forall s2 now2 today2,
       exists h'' p'',
         updateProgress h' p' s2 now2 today2 = Some (h'', p'') /\
         total_quizzes_completed p'' = total_quizzes_completed p + 2).
Proof.
  intros Hwf.
  destruct (updateProgress_heap h p s now today Hwf)
    as (h' & p' & a & Hu & Ea & Ep & Hl & Hno & Hna & _).
  assert (Hach : achievements p' = Some a) by (by subst p').
  assert (Hmlt : (category_mastery p' < length (objects h'))%nat).
  { subst p'. simpl. rewrite Hno. apply Hwf. }
  destruct (lookup_lt_is_Some_2 (objects h') (category_mastery p') Hmlt) as [o Ho].
  eexists h', p', a, _, o. split; [exact Hu|]. split; [exact Hach|].
  split; [exact Hl|]. split; [exact Ho|]. split.
  - intros Hnone. rewrite Hnone in Ea. split; [exact Ea|].
    unfold achievement_list. by rewrite Hnone.
  - intros s2 now2 today2.
    assert (Hwf' : wf_progress h' p').
    { split; [exact Hmlt|]. rewrite Hach. by apply lookup_lt_Some in Hl. }
    destruct (updateProgress_heap h' p' s2 now2 today2 Hwf')
      as (h'' & p'' & a2 & Hu2 & _ & Ep2 & _).
    exists h'', p''. split; [exact Hu2|]. subst p'' p'. simpl. lia.
Qed.

(** A perfect session for a record without achievements. *)
Lemma updateProgress_keeps_wf_witness :
  exists h' p' a l o,
    updateProgress Fixtures.heap0 Fixtures.progress_without_achievements
      Fixtures.perfect_session 100 101 = Some (h', p') /\
    achievements p' = Some a /\
    arrays h' !! a = Some l /\
    mastery_of h' p' = Some o /\
    a = 1%nat /\
    l = ["Perfect Score"].
Proof.
  destruct (updateProgress_keeps_wf Fixtures.heap0 Fixtures.progress_without_achievements
              Fixtures.perfect_session 100 101)
    as (h' & p' & a & l & o & Hu & Ha & Hl & Ho & Hnew & _).
  - split; simpl; [lia|exact I].
  - destruct Hnew as [Ea El]; [reflexivity|].
    exists h', p', a, l, o.
    split; [exact Hu|]. split; [exact Ha|]. split; [exact Hl|]. split; [exact Ho|].
    split; [exact Ea|exact El].
Defined.

(** X17. [updateProgress] writes to the mastery object and the achievement
    array of its argument only: a record with another mastery object keeps
    its mastery, and a record with another achievement array keeps its
    achievements. *)
Theorem updateProgress_frame (h : Heap) (p : UserProgress)
    (s : QuizSession) (now today : Date) :
  wf_progress h p ->
  exists h' p',
    updateProgress h p s now today = Some (h', p') /\
    (forall q, category_mastery q <> category_mastery p ->
               mastery_of h' q = mastery_of h q) /\
    (forall q, wf_progress h q ->
               (forall a, achievements q = Some a -> achievements p <> Some a) ->
               achievement_list h' q = achievement_list h q).
Proof.
  intros Hwf.
  destruct (updateProgress_heap h p s now today Hwf)
    as (h' & p' & a & Hu & Ea & Ep & Hl & Hno & Hna & Hfo & Hfa).
  exists h', p'. split; [done|]. split.
  - intros q Hq. unfold mastery_of. by apply Hfo.
  - intros q [_ Hq] Hdiff. unfold achievement_list.
    destruct (achievements q) as [aq|] eqn:Eq; [|done].
    rewrite Hfa; [done| |done].
    subst a. destruct (achievements p) as [ap|] eqn:Eap; [|lia].
    intros ->. by apply (Hdiff ap).
Qed.

(** The objects of another user, in the same heap, stay as they are. *)
Lemma updateProgress_frame_witness :
  exists h' p',
    updateProgress Fixtures.heap2 Fixtures.progress0 Fixtures.perfect_session 100 101
    = Some (h', p') /\
    mastery_of Fixtures.heap2 Fixtures.other_progress = Some [(credit, 70%float)] /\
    mastery_of h' Fixtures.other_progress = Some [(credit, 70%float)] /\
    achievement_list Fixtures.heap2 Fixtures.other_progress = ["Quiz Whiz"] /\
    achievement_list h' Fixtures.other_progress = ["Quiz Whiz"] /\
    mastery_of h' Fixtures.progress0 <> mastery_of Fixtures.heap2 Fixtures.progress0.
Proof.
  destruct (updateProgress_frame Fixtures.heap2 Fixtures.progress0
              Fixtures.perfect_session 100 101)
    as (h' & p' & Hu & Hm & Ha).
  - split; simpl; lia.
  - exists h', p'. split; [exact Hu|]. split; [reflexivity|].
    split; [rewrite (Hm Fixtures.other_progress); [reflexivity|discriminate]|].
    split; [reflexivity|].
    split.
    + rewrite (Ha Fixtures.other_progress); [reflexivity|split; simpl; lia|].
      intros a [= <-]. discriminate.
    + assert (E : updateProgress Fixtures.heap2 Fixtures.progress0
                    Fixtures.perfect_session 100 101
                  = Some ({| objects := [[(savings, 0.5%float)]; [(credit, 70%float)]];
                             arrays := [["Perfect Score"]; ["Quiz Whiz"]] |}, p'))
        by (rewrite Hu; vm_compute in Hu; injection Hu as <- _; reflexivity).
      rewrite Hu in E. injection E as ->. discriminate.
Defined.

Lemma updateProgress_mastery_get (h : Heap) (p : UserProgress)
    (s : QuizSession) (now today : Date) (o : JsObject float) :
  wf_progress h p ->
  mastery_of h p = Some o ->
  List.NoDup (map fst (category_performance s)) ->
  exists h' p' o',
    updateProgress h p s now today = Some (h', p') /\
    mastery_of h' p' = Some o' /\
    (forall c,
       get o' c = match get (category_performance s) c with
                  | Some n => Some ((or_zero_f (get o c) + Z2float n) / 2)%float
                  | None => get o c
                  end).
Proof.
  intros Hwf Ho Hnd. unfold mastery_of in Ho.
  destruct (update_mastery_spec (category_mastery p) (category_performance s) h o Ho Hnd)
    as (h1 & o' & Hh1 & Harr & _ & _ & Ho' & Hget).
  destruct (updateProgress_after_mastery h h1 p s now today Hwf Hh1 Harr)
    as (h' & p' & a & Hu & _ & Ep & Hobj & _).
  exists h', p', o'. split; [done|]. split; [|done].
  unfold mastery_of. rewrite Hobj. by subst p'.
Qed.

(** X18. After [updateProgress], the mastery of a category of the session's
    [category_performance] is the mean of its former value, 0 when it had
    none, and the session's count for it; the mastery of every other
    category is as before. *)
Theorem updateProgress_mastery (h : Heap) (p : UserProgress)
    (s : QuizSession) (now today : Date) (o : JsObject float) :
  wf_progress h p ->
  mastery_of h p = Some o ->
  List.NoDup (map fst (category_performance s)) ->
  exists h' p' o',
    updateProgress h p s now today = Some (h', p') /\
    mastery_of h' p' = Some o' /\
    (forall c,
       get o' c = match get (category_performance s) c with
                  | Some n => Some ((or_zero_f (get o c) + Z2float n) / 2)%float
                  | None => get o c
                  end).
Proof. apply updateProgress_mastery_get. Qed.

Lemma updateProgress_mastery_witness :
  exists h' p' o',
    updateProgress Fixtures.heap0 Fixtures.progress0 Fixtures.session_8_of_10 100 101
    = Some (h', p') /\
    mastery_of h' p' = Some o' /\
    (forall c,
       get o' c = match get (category_performance Fixtures.session_8_of_10) c with
                  | Some n => Some ((or_zero_f (get [] c) + Z2float n) / 2)%float
                  | None => get [] c
                  end).
Proof.
  apply (updateProgress_mastery Fixtures.heap0 Fixtures.progress0
           Fixtures.session_8_of_10 100 101 []).
  - wf_fixture.
  - reflexivity.
  - apply NoDup_ListNoDup. apply (bool_decide_unpack _). vm_compute. exact I.
Defined.

(** X19. [calculateLearningStreak] gives 1 for a first activity and for a
    last activity less than two days, of 86 400 000 ms, before [today],
    a date in the future included, and 0 otherwise: the streak never counts
    further than 1. *)
Theorem calculateLearningStreak_cases (lastActivity : option Date) (today : Date) :
  (calculateLearningStreak lastActivity today = 1
   <-> match lastActivity with
       | None => True
       | Some t => today - t < 2 * 86400000
       end) /\
  (calculateLearningStreak lastActivity today = 0
   <-> match lastActivity with
       | None => False
       | Some t => 2 * 86400000 <= today - t
       end).
Proof.
  unfold calculateLearningStreak. destruct lastActivity as [t|]; [|done].
  change (1000 * 60 * 60 * 24) with 86400000.
  pose proof (Z.div_lt_upper_bound (today - t) 86400000 2 ltac:(lia)) as Hlt.
  pose proof (Z.div_le_lower_bound (today - t) 86400000 2 ltac:(lia)) as Hge.
  destruct (Z.leb_spec ((today - t) / 86400000) 1) as [Hd|Hd].
  - assert (today - t < 2 * 86400000).
    { destruct (Z.lt_ge_cases (today - t) (2 * 86400000)); [done|]. lia. }
    split; split; intros; try done; lia.
  - assert (2 * 86400000 <= today - t).
    { destruct (Z.lt_ge_cases (today - t) (2 * 86400000)); [|done]. lia. }
    split; split; intros; try done; lia.
Qed.

(** X20. [updateProgress] never changes the user or the level of the
    record, stamps it with [now], and leaves a streak of 0 or 1 that does
    not depend on the streak before. *)
Theorem updateProgress_identity_fields (h : Heap) (p : UserProgress)
    (s : QuizSession) (now today : Date) :
  wf_progress h p ->
  exists h' p',
    updateProgress h p s now today = Some (h', p') /\
    p_user_id p' = p_user_id p /\
    current_level p' = current_level p /\
    last_activity p' = Some now /\
    learning_streak p' = calculateLearningStreak (last_activity p) today /\
    (learning_streak p' = 0 \/ learning_streak p' = 1).
Proof.
  intros Hwf.
  destruct (updateProgress_heap h p s now today Hwf)
    as (h' & p' & a & Hu & _ & Ep & _).
  exists h', p'. split; [done|]. subst p'. simpl.
  repeat (split; [done|]).
  unfold calculateLearningStreak. destruct (last_activity p); [|by right].
  destruct (_ <=? 1); auto.
Qed.

Lemma updateProgress_identity_fields_witness :
  exists h' p',
    updateProgress Fixtures.heap0 Fixtures.progress4 Fixtures.session_8_of_10 100 101
    = Some (h', p') /\
    p_user_id p' = "guest" /\
    current_level p' = intermediate /\
    last_activity p' = Some 100 /\
    learning_streak p' = 1 /\
    (learning_streak p' = 0 \/ learning_streak p' = 1).
Proof.
  apply (updateProgress_identity_fields Fixtures.heap0 Fixtures.progress4
           Fixtures.session_8_of_10 100 101).
  wf_fixture.
Defined.

End TrackerFacts.

(** ** More on the glossary *)

Module GlossaryFacts.

Import FinancialQuestionBank.

Lemma filterM_total {A : Type} (f : A -> bool) (l : list A) :
  filterM (fun x => Ok (f x)) l = Ok (List.filter f l).
Proof.
  induction l as [|x l IH]; simpl; [done|]. rewrite IH. simpl. by destruct (f x).
Qed.

(** X21. When the term looked up has a [related_terms] array,
    [getRelatedTerms] returns, in the order of the table, the stored terms
    whose id is in the array; an id of the array that names no stored term
    is passed over without error. *)
Theorem getRelatedTermsIn_listed (ts : list GlossaryTerm) (termId : string)
    (t0 : GlossaryTerm) (ids : list string) :
  find (fun t => String.eqb (t_id t) termId) ts = Some t0 ->
  related_terms t0 = Some ids ->
  exists r,
    getRelatedTermsIn ts termId = Ok r /\
    r = List.filter (fun t => includes ids (t_id t)) ts /\
    (forall t, In t r <-> In t ts /\ In (t_id t) ids).
Proof.
  intros Hfind Hrel. unfold getRelatedTermsIn. rewrite Hfind.
  exists (List.filter (fun t => includes ids (t_id t)) ts). split; [|split; [done|]].
  - unfold related_includes. rewrite Hrel. apply filterM_total.
  - intros t. rewrite filter_In. by rewrite includes_In.
Qed.

(** "ira_roth" lists "traditional_ira", which is no term of the glossary,
    and "401k", which is one. *)
Lemma getRelatedTermsIn_listed_witness :
  exists r,
    getRelatedTermsIn terms "ira_roth" = Ok r /\
    r = List.filter (fun t => includes ["traditional_ira"; "401k"] (t_id t)) terms /\
    (forall t, In t r <-> In t terms /\ In (t_id t) ["traditional_ira"; "401k"]).
Proof.
  destruct (find (fun t => String.eqb (t_id t) "ira_roth") terms) as [t0|] eqn:F;
    [|vm_compute in F; discriminate].
  apply (getRelatedTermsIn_listed terms "ira_roth" t0 ["traditional_ira"; "401k"] F).
  vm_compute in F. injection F as <-. reflexivity.
Defined.

(** X22. In the glossary as it is, the only term ever returned as related
    is "401k", and only for "ira_roth" and "529_plan": every other lookup
    that returns gives the empty sequence. *)
Theorem getRelatedTerms_only_401k (termId : string) (r : list GlossaryTerm) :
  getRelatedTerms termId = Ok r ->
  r = [] \/
  (map t_id r = ["401k"] /\ (termId = "ira_roth" \/ termId = "529_plan")).
Proof.
  unfold getRelatedTerms, getRelatedTermsIn.
  destruct (find _ terms) as [t0|] eqn:F; [|intros [= <-]; by left].
  apply find_some in F as [Hin Heq]. apply String.eqb_eq in Heq. subst termId.
  unfold terms, glossaryTerms in Hin. simpl in Hin.
  repeat (destruct Hin as [<-|Hin];
          [intros H; vm_compute in H;
           first [discriminate H
                 | injection H as <-; first [by left | right; simpl; auto]]|]).
  destruct Hin.
Qed.

Lemma getRelatedTerms_only_401k_witness :
  exists r,
    getRelatedTerms "529_plan" = Ok r /\
    (r = [] \/ (map t_id r = ["401k"] /\ ("529_plan" = "ira_roth" \/ "529_plan" = "529_plan"))).
Proof.
  destruct (getRelatedTerms "529_plan") as [r|e] eqn:E; [|vm_compute in E; discriminate].
  exists r. split; [reflexivity|].
  apply (getRelatedTerms_only_401k "529_plan" r E).
Defined.

(** X23. [getTermsByCategory] returns each term of the glossary for its own
    category and for no other, and returns nothing for the four categories
    that have no term: planning, insurance, budgeting and debt management. *)
Theorem getTermsByCategory_exact (c : FinancialCategory) :
  (forall t, In t (getTermsByCategory c) <-> In t getAllTerms /\ t_category t = c) /\
  (getTermsByCategory c = []
   <-> In c [planning; insurance; budgeting; debt_management]).
Proof.
  split.
  - intros t. unfold getTermsByCategory, getAllTerms. rewrite filter_In.
    by rewrite category_eqb_true.
  - destruct c; vm_compute; split; intros H; try discriminate H; intuition discriminate.
Qed.

End GlossaryFacts.

(** ** The advice after a session *)

Module AdviceFacts.

Import ProgressTracker.

Local Open Scope Z_scope.

Lemma get_In {V : Type} (o : JsObject V) (k : FinancialCategory) (v : V) :
  get o k = Some v -> In (k, v) o.
Proof.
  induction o as [|[k' v'] o IH]; simpl; [discriminate|].
  destruct (category_eqb k' k) eqn:E.
  - apply category_eqb_true in E. intros [= ->]. left. by subst.
  - intros H. right. by apply IH.
Qed.

(** The lines on categories: what is in the list stays, and every entry
    below 60 adds its line. *)
Lemma focus_lines (mastery : JsObject float) (acc : list string) :
  let lines :=
    fold_left
      (fun recommendations entry =>
         if PrimFloat.ltb (snd entry) 60
         then recommendations ++
                [String.append "Focus on improving "
                   (String.append (category_name (fst entry)) " knowledge")]
         else recommendations)
      mastery acc in
  (forall x, In x acc -> In x lines) /\
  (forall c v, In (c, v) mastery -> PrimFloat.ltb v 60 = true ->
               In (String.append "Focus on improving "
                     (String.append (category_name c) " knowledge")) lines).
Proof.
  revert acc. induction mastery as [|[c0 v0] mastery IH]; intros acc; simpl.
  - split; [done|]. intros c v [].
  - destruct (IH (if PrimFloat.ltb v0 60
                  then acc ++ [String.append "Focus on improving "
                                 (String.append (category_name c0) " knowledge")]
                  else acc)) as [Hkeep Hadd].
    split.
    + intros x Hx. apply Hkeep. destruct (PrimFloat.ltb v0 60); [|done].
      apply in_or_app. by left.
    + intros c v [[= -> ->]|Hin] Hlt; [|by apply (Hadd c v)].
      apply Hkeep. rewrite Hlt. apply in_or_app. right. by left.
Qed.

(** Half of a count below 120 is below 60, in binary64. *)
Lemma half_count_below_60 (n : Z) :
  0 <= n < 120 -> PrimFloat.ltb ((or_zero_f None + Z2float n) / 2) 60 = true.
Proof.
  intros Hn.
  assert (H : forallb (fun k => PrimFloat.ltb ((or_zero_f None + Z2float (Z.of_nat k)) / 2) 60)
                (seq 0 120) = true) by (vm_compute; reflexivity).
  rewrite forallb_forall in H. specialize (H (Z.to_nat n)).
  rewrite Z2Nat.id in H by lia. apply H. apply in_seq. lia.
Qed.

(** X24. For a record without any mastery yet, a session makes
    [generateRecommendations] advise to focus on every category of its
    [category_performance] whose count is from 0 to 119, whatever the
    counts of the other categories: the mastery stored is half the count,
    which the advice compares with 60. *)
Theorem first_session_advice (h : Heap) (p : UserProgress) (s : QuizSession)
    (now today : Date) :
  wf_progress h p ->
  mastery_of h p = Some [] ->
  List.NoDup (map fst (category_performance s)) ->
  exists h' p' recs,
    updateProgress h p s now today = Some (h', p') /\
    generateRecommendations h' p' = Some recs /\
    (forall c n, get (category_performance s) c = Some n ->
                 0 <= n < 120 ->
                 In (String.append "Focus on improving "
                       (String.append (category_name c) " knowledge")) recs).
Proof.
  intros Hwf Ho Hnd. unfold mastery_of in Ho.
  destruct (TrackerFacts.update_mastery_spec (category_mastery p) (category_performance s)
              h [] Ho Hnd)
    as (h1 & o' & Hh1 & Harr & _ & _ & Ho' & Hget).
  destruct (TrackerFacts.updateProgress_after_mastery h h1 p s now today Hwf Hh1 Harr)
    as (h' & p' & a & Hu & _ & Ep & Hobj & _).
  assert (Hm : objects h' !! category_mastery p' = Some o').
  { rewrite Hobj. by subst p'. }
  eexists h', p', _. split; [exact Hu|].
  unfold generateRecommendations.
  lazymatch goal with
  | |- context [mbind _ ?x] =>
      let Hx := fresh in assert (Hx : x = Some o') by exact Hm; rewrite Hx
  end.
  simpl. split; [reflexivity|].
  intros c n Hgn Hsmall.
  destruct (focus_lines o' []) as [_ Hadd]. cbv zeta in Hadd.
  assert (Hline : In (String.append "Focus on improving "
                        (String.append (category_name c) " knowledge"))
                    (fold_left
                       (fun recommendations entry =>
                          if PrimFloat.ltb (snd entry) 60
                          then recommendations ++
                                 [String.append "Focus on improving "
                                    (String.append (category_name (fst entry)) " knowledge")]
                          else recommendations) o' [])).
  { specialize (Hget c). rewrite Hgn in Hget. simpl get in Hget.
    apply (Hadd c _ (get_In _ _ _ Hget)).
    by apply half_count_below_60. }
  destruct (PrimFloat.ltb (overall_accuracy p') 70); [apply in_or_app; by left|].
  destruct (PrimFloat.ltb 85 (overall_accuracy p')); [apply in_or_app; by left|done].
Qed.

(** One correct answer on savings and two hundred on credit: the advice
    is to focus on savings. *)
Lemma first_session_advice_witness :
  exists h' p' recs,
    updateProgress Fixtures.heap0 Fixtures.progress0
      (Fixtures.session_of 201 201 [(savings, 1); (credit, 200)]) 100 101
    = Some (h', p') /\
    generateRecommendations h' p' = Some recs /\
    In "Focus on improving savings knowledge" recs.
Proof.
  destruct (first_session_advice Fixtures.heap0 Fixtures.progress0
              (Fixtures.session_of 201 201 [(savings, 1); (credit, 200)]) 100 101)
    as (h' & p' & recs & Hu & Hr & Hadv).
  - split; simpl; lia.
  - reflexivity.
  - apply NoDup_ListNoDup. apply (bool_decide_unpack _). vm_compute. exact I.
  - exists h', p', recs. split; [exact Hu|]. split; [exact Hr|].
    apply (Hadv savings 1); [reflexivity|lia].
Defined.

End AdviceFacts.

(** ** The content tables *)

Module ContentFacts.

Import FinancialQuestionBank AssessmentEngine.

Local Open Scope Z_scope.

(** X25. Every question of the bank and of the pretest has four options, a
    correct index that is one of them, and a difficulty weight from 1 to 5,
    as the interface says. *)
Theorem questions_well_formed (q : QuizQuestion) :
  In q questions \/ In q assessmentQuestions ->
  length (options q) = 4%nat /\
  0 <= correct q < 4 /\
  1 <= difficulty_weight q <= 5.
Proof.
  intros Hq.
  assert (H : forallb
                (fun q => Nat.eqb (length (options q)) 4
                          && (0 <=? correct q) && (correct q <? 4)
                          && (1 <=? difficulty_weight q) && (difficulty_weight q <=? 5))
                (questions ++ assessmentQuestions) = true) by (vm_compute; reflexivity).
  rewrite forallb_forall in H. specialize (H q).
  rewrite !andb_true_iff in H.
  destruct H as ((((H1 & H2) & H3) & H4) & H5); [apply in_or_app; tauto|].
  apply Nat.eqb_eq in H1. lia.
Qed.

(** The last question of the pretest. *)
Lemma questions_well_formed_witness :
  match nth_error assessmentQuestions 4 with
  | Some q =>
      length (options q) = 4%nat /\ 0 <= correct q < 4 /\ 1 <= difficulty_weight q <= 5
  | None => False
  end.
Proof.
  unfold assessmentQuestions. cbn [nth_error].
  apply (questions_well_formed _). right.
  unfold assessmentQuestions. cbn [In]. tauto.
Defined.

End ContentFacts.

(** ** From the answers to the progress *)

Module SessionFacts.

Import AssessmentEngine QuizEngine ProgressTracker.

Local Open Scope Z_scope.

Lemma no_correct_entries (qs : list QuizQuestion) (answers : list Z) :
  (forall i q, qs !! i = Some q -> answers !! i <> Some (correct q)) ->
  correct_entries qs answers = [].
Proof.
  intros Hnone. destruct (correct_entries qs answers) as [|[i q] l] eqn:E; [done|].
  assert (Hin : In (i, q) (correct_entries qs answers)) by (rewrite E; by left).
  apply correct_entries_spec in Hin as [Hq Ha]. by destruct (Hnone i q Hq).
Qed.

(** X26. Without a correct answer, and so for an empty [answers], the
    assessment over any pretest gives the level novice, no strength, and
    the twelve categories as improvement areas, in the order of the
    literal. *)
Theorem assessWith_no_correct_answer (qs : list QuizQuestion) (answers : list Z)
    (now : Date) :
  (forall i q, qs !! i = Some q -> answers !! i <> Some (correct q)) ->
  let r := assessWith qs answers now in
  primary_level r = novice /\
  strengths r = [] /\
  improvement_areas r = all_categories /\
  (forall c, get (category_scores r) c = Some 0).
Proof.
  intros Hnone r.
  assert (E : accumulate qs answers = (initialScores, initialCategoryScores)).
  { rewrite AssessFacts.accumulate_fold. by rewrite (no_correct_entries qs answers Hnone). }
  destruct (AssessFacts.assessWith_fields qs answers now) as (Hp & Hc & Hi & Hs).
  fold r in Hp, Hc, Hi, Hs. rewrite E in Hp, Hc, Hi, Hs.
  rewrite Hp, Hc, Hi, Hs. repeat split. intros c. by destruct c.
Qed.

Lemma assessWith_no_correct_answer_witness :
  let r := assessUser [] 0 in
  primary_level r = novice /\
  strengths r = [] /\
  improvement_areas r = all_categories /\
  (forall c, get (category_scores r) c = Some 0).
Proof.
  apply (assessWith_no_correct_answer assessmentQuestions [] 0).
  intros i q _. by rewrite lookup_nil.
Defined.

(** The keys and the counts of the performance that [scoreQuiz] stores. *)
Lemma scoreQuiz_performance (s : QuizSession) (t : Date) :
  List.NoDup (map fst (category_performance (scoreQuiz s t))) /\
  (forall c,
     get (category_performance (scoreQuiz s t)) c
     = if category_count (questions s) (user_answers s) c =? 0
       then None
       else Some (category_count (questions s) (user_answers s) c)).
Proof.
  rewrite ScoreFacts.scoreQuiz_category_performance. split.
  - apply (keys_bumps_NoDup (fun iq : nat * QuizQuestion => category (snd iq)) (fun _ => 1)).
    constructor.
  - intros c.
    rewrite (get_bumps (fun iq : nat * QuizQuestion => category (snd iq)) (fun _ => 1)).
    unfold category_count.
    destruct (List.filter _ (correct_entries _ _)) as [|x l] eqn:E; [done|].
    rewrite ScoreFacts.sumZ_ones. simpl get. simpl or_zero.
    destruct (Z.eqb_spec (Z.of_nat (length (x :: l))) 0) as [H0|_]; [simpl in H0; lia|].
    f_equal.
Qed.

(** X27. Scoring a session and folding it into the progress changes the
    mastery of exactly the categories with a correct answer: such a
    category gets the mean of its former mastery, 0 when it had none, and
    its number of correct answers; the others keep theirs. *)
Theorem scored_session_mastery (h : Heap) (p : UserProgress) (s : QuizSession)
    (t now today : Date) (o : JsObject float) :
  wf_progress h p ->
  mastery_of h p = Some o ->
  exists h' p' o',
    updateProgress h p (scoreQuiz s t) now today = Some (h', p') /\
    mastery_of h' p' = Some o' /\
    (forall c,
       get o' c
       = if category_count (questions s) (user_answers s) c =? 0
         then get o c
         else Some ((or_zero_f (get o c)
                     + Z2float (category_count (questions s) (user_answers s) c)) / 2)%float).
Proof.
  intros Hwf Ho.
  destruct (scoreQuiz_performance s t) as [Hnd Hget].
  destruct (TrackerFacts.updateProgress_mastery_get h p (scoreQuiz s t) now today o
              Hwf Ho Hnd) as (h' & p' & o' & Hu & Hm & Hg).
  exists h', p', o'. split; [done|]. split; [done|].
  intros c. rewrite Hg, Hget.
  by destruct (category_count (questions s) (user_answers s) c =? 0).
Qed.

Lemma scored_session_mastery_witness :
  exists h' p' o',
    updateProgress Fixtures.heap0 Fixtures.progress0
      (scoreQuiz Fixtures.novice_session 5) 100 101 = Some (h', p') /\
    mastery_of h' p' = Some o' /\
    (forall c,
       get o' c
       = if category_count (questions Fixtures.novice_session)
              (user_answers Fixtures.novice_session) c =? 0
         then get [] c
         else Some ((or_zero_f (get [] c)
                     + Z2float (category_count (questions Fixtures.novice_session)
                                  (user_answers Fixtures.novice_session) c)) / 2)%float).
Proof.
  apply (scored_session_mastery Fixtures.heap0 Fixtures.progress0
           Fixtures.novice_session 5 100 101 []).
  - split; simpl; lia.
  - reflexivity.
Defined.

Lemma lookup_map_Some {A B : Type} (f : A -> B) (l : list A) (i : nat) (x : A) :
  l !! i = Some x -> map f l !! i = Some (f x).
Proof.
  revert i. induction l as [|a l IH]; intros [|i] H; simpl in *; try discriminate.
  - by injection H as ->.
  - by apply IH.
Qed.

(** X28. A session whose [total_questions] is its number of questions and
    whose answers are all correct earns "Perfect Score" once scored and
    folded into the progress. *)
Theorem all_correct_earns_perfect_score (h : Heap) (p : UserProgress) (s : QuizSession)
    (t now today : Date) :
  wf_progress h p ->
  total_questions s = Z.of_nat (length (questions s)) ->
  (forall i q, questions s !! i = Some q -> user_answers s !! i = Some (correct q)) ->
  exists h' p',
    updateProgress h p (scoreQuiz s t) now today = Some (h', p') /\
    In "Perfect Score" (achievement_list h' p').
Proof.
  intros Hwf Htotal Hall.
  destruct (TrackerFacts.updateProgress_heap h p (scoreQuiz s t) now today Hwf)
    as (h' & p' & a & Hu & _ & Ep & Hl & _).
  exists h', p'. split; [done|].
  rewrite (TrackerFacts.achievement_list_after h' p' a _ ltac:(by subst p') Hl).
  apply TrackerFacts.new_achievements_perfect.
  destruct (ScoreFacts.scoreQuiz_inputs s t) as [Hq _].
  assert (Ht : total_questions (scoreQuiz s t) = total_questions s).
  { unfold scoreQuiz. by destruct (forEach _ _ _ _). }
  rewrite Ht, Htotal. by apply ScoreBounds.scoreQuiz_full_iff.
Qed.

Lemma all_correct_earns_perfect_score_witness :
  exists h' p',
    updateProgress Fixtures.heap0 Fixtures.progress0
      (scoreQuiz Fixtures.all_correct_session 5) 100 101 = Some (h', p') /\
    In "Perfect Score" (achievement_list h' p').
Proof.
  apply (all_correct_earns_perfect_score Fixtures.heap0 Fixtures.progress0
           Fixtures.all_correct_session 5 100 101).
  - split; simpl; lia.
  - vm_compute. reflexivity.
  - intros i q Hq. by apply (lookup_map_Some correct).
Defined.

End SessionFacts.
